(** * Course schedule normalisation and grouping: a shallow embedding

    This development embeds the schedule code of the trainer portal and of
    the backend import scripts:
    - [ScheduleBuilder.tsx]: [getSessionsAndDays], [groupScheduleBySession],
      [flattenSchedule];
    - [import-course-schedule-production.ts]: [normalizeTime],
      [parseModuleTitle], [parseSubmoduleTitle], [calculateDurationMinutes],
      [importCourseSchedule];
    - the array-literal import script (the second script of the unnamed
      part_001, the same loop as [import-course-schedule-from-output.ts]):
      its [parseSubmoduleTitle] and [cleanAndImportCourseSchedule].

    JavaScript strings are sequences of UTF-16 code units, modelled as
    [list N]; regular expressions are run by a backtracking matcher that
    follows the ECMAScript matching order (leftmost start position, left
    alternative first, greedy quantifiers longest first). *)

From Stdlib Require Import List String Ascii ZArith QArith NArith Bool.
From Stdlib Require Import Permutation Lia DecimalN Qround.
Import ListNotations.
Open Scope nat_scope.
Set Warnings "-register-all".

(* ------------------------------------------------------------------ *)
(** ** JavaScript strings *)

Module Js.

Definition jstr := list N.

(** A Rocq string literal (ASCII) as JavaScript code units. *)
Definition js (s : string) : jstr :=
  map (fun a => N.of_nat (nat_of_ascii a)) (list_ascii_of_string s).

Definition jstr_eqb (a b : jstr) : bool :=
  if list_eq_dec N.eq_dec a b then true else false.

(** ECMAScript WhiteSpace and LineTerminator code points: the set of
    [\s] and of [String.prototype.trim]. *)
Definition is_ws (c : N) : bool :=
  existsb (N.eqb c) [9; 10; 11; 12; 13; 32; 160; 5760; 8232; 8233; 8239; 8287;
                     12288; 65279]%N
  || ((8192 <=? c)%N && (c <=? 8202)%N).

Definition is_digit (c : N) : bool := (48 <=? c)%N && (c <=? 57)%N.

Fixpoint drop_ws (s : jstr) : jstr :=
  match s with
  | c :: s' => if is_ws c then drop_ws s' else s
  | [] => []
  end.

(** [String.prototype.trim]. *)
Definition trim (s : jstr) : jstr := rev (drop_ws (rev (drop_ws s))).

(** [toUpperCase] / [toLowerCase] on ASCII letters.  The code applies them
    only to compare with ["NULL"] and to a regex capture made of ASCII
    letters and dots; no non-ASCII code unit upper-cases to a single one of
    the letters N, U, L. *)
Definition upper (c : N) : N := if (97 <=? c)%N && (c <=? 122)%N then c - 32 else c.
Definition lower (c : N) : N := if (65 <=? c)%N && (c <=? 90)%N then c + 32 else c.
Definition toUpperCase (s : jstr) : jstr := map upper s.
Definition toLowerCase (s : jstr) : jstr := map lower s.

(** [s.replace(/x/g, y)] for a one-code-unit pattern and replacement. *)
Definition replace_char (x y : N) (s : jstr) : jstr :=
  map (fun c => if (c =? x)%N then y else c) s.

(** [s.split(sep)] for a one-code-unit separator. *)
Fixpoint split_on (sep : N) (s : jstr) : list jstr :=
  match s with
  | [] => [[]]
  | c :: s' =>
      if (c =? sep)%N then [] :: split_on sep s'
      else match split_on sep s' with
           | w :: ws => (c :: w) :: ws
           | [] => [[c]]
           end
  end.

(** [String(n)] for an integer Number; [None] is NaN. *)
Fixpoint digits_of_uint (d : Decimal.uint) : jstr :=
  match d with
  | Decimal.Nil => []
  | Decimal.D0 d => 48 :: digits_of_uint d
  | Decimal.D1 d => 49 :: digits_of_uint d
  | Decimal.D2 d => 50 :: digits_of_uint d
  | Decimal.D3 d => 51 :: digits_of_uint d
  | Decimal.D4 d => 52 :: digits_of_uint d
  | Decimal.D5 d => 53 :: digits_of_uint d
  | Decimal.D6 d => 54 :: digits_of_uint d
  | Decimal.D7 d => 55 :: digits_of_uint d
  | Decimal.D8 d => 56 :: digits_of_uint d
  | Decimal.D9 d => 57 :: digits_of_uint d
  end%N.

Definition z_to_jstr (z : Z) : jstr :=
  if (z <? 0)%Z then 45%N :: digits_of_uint (N.to_uint (Z.to_N (- z)))
  else digits_of_uint (N.to_uint (Z.to_N z)).

Definition number_to_jstr (n : option Z) : jstr :=
  match n with Some z => z_to_jstr z | None => js "NaN" end.

(** [s.padStart(n, c)]. *)
Definition padStart (n : nat) (c : N) (s : jstr) : jstr :=
  repeat c (n - List.length s) ++ s.

(** [parseInt(s, 10)]: leading white space, an optional sign, the longest
    run of decimal digits; NaN ([None]) when there is no digit. *)
Fixpoint digits_prefix (s : jstr) : jstr :=
  match s with
  | c :: s' => if is_digit c then c :: digits_prefix s' else []
  | [] => []
  end.

Definition digits_value (ds : jstr) : Z :=
  fold_left (fun acc c => acc * 10 + Z.of_N (c - 48))%Z ds 0%Z.

Definition parseInt (s : jstr) : option Z :=
  let s1 := drop_ws s in
  let '(sign, s2) :=
    match s1 with
    | 45%N :: r => ((-1)%Z, r)
    | 43%N :: r => (1%Z, r)
    | _ => (1%Z, s1)
    end in
  match digits_prefix s2 with
  | [] => None
  | ds => Some (sign * digits_value ds)%Z
  end.

(** The first code unit, if any, is not white space. *)
Definition starts_non_ws (l : jstr) : Prop :=
  match l with c :: _ => is_ws c = false | [] => True end.

End Js.

(* ------------------------------------------------------------------ *)
(** ** Regular expressions, ECMAScript backtracking order *)

Module Regex.
Import Js.

Inductive re : Type :=
| REps
| RClass (p : N -> bool)
| RRep (p : N -> bool) (lo : nat) (hi : option nat)   (** greedy [p{lo,hi}] *)
| RSeq (r1 r2 : re)
| RAlt (r1 r2 : re)
| RGroup (n : nat) (r : re).

(** Capture groups, most recent first. *)
Definition caps := list (nat * jstr).

Fixpoint cap_get (n : nat) (c : caps) : option jstr :=
  match c with
  | [] => None
  | (k, v) :: c' => if Nat.eqb k n then Some v else cap_get n c'
  end.

Definition cont := jstr -> caps -> option (jstr * caps).

(** Length of the longest run of [p], at most [hi]. *)
Fixpoint run_len (p : N -> bool) (hi : option nat) (s : jstr) : nat :=
  match hi, s with
  | Some O, _ => O
  | _, c :: s' => if p c then S (run_len p (option_map pred hi) s') else O
  | _, [] => O
  end.

(** Try the continuation after [j], [j-1], ..., [lo] repetitions. *)
Fixpoint rep_back (k : cont) (s : jstr) (c : caps) (lo j : nat) : option (jstr * caps) :=
  match k (skipn j s) c with
  | Some r => Some r
  | None =>
      match j with
      | O => None
      | S j' => if Nat.leb lo j' then rep_back k s c lo j' else None
      end
  end.

Fixpoint m (r : re) (s : jstr) (c : caps) (k : cont) {struct r} : option (jstr * caps) :=
  match r with
  | REps => k s c
  | RClass p => match s with x :: s' => if p x then k s' c else None | [] => None end
  | RRep p lo hi =>
      let n := run_len p hi s in
      if Nat.leb lo n then rep_back k s c lo n else None
  | RSeq r1 r2 => m r1 s c (fun s' c' => m r2 s' c' k)
  | RAlt r1 r2 =>
      match m r1 s c k with
      | Some x => Some x
      | None => m r2 s c k
      end
  | RGroup n r1 =>
      m r1 s c (fun s' c' => k s' ((n, firstn (List.length s - List.length s') s) :: c'))
  end.

Definition m_top (r : re) (s : jstr) : option (jstr * caps) :=
  m r s [] (fun s' c => Some (s', c)).

(** The leftmost match: (matched text, rest of the input, captures). *)
Fixpoint search (r : re) (s : jstr) : option (jstr * jstr * caps) :=
  match m_top r s with
  | Some (rest, c) => Some (firstn (List.length s - List.length rest) s, rest, c)
  | None => match s with [] => None | _ :: s' => search r s' end
  end.

(** [s.match(r)] for a regex without the g flag: [None] is null,
    otherwise the captures. *)
Definition exec (r : re) (s : jstr) : option caps :=
  match search r s with Some (_, _, c) => Some c | None => None end.

(** [s.match(r)] with the g flag: the matched texts; the empty list is
    null. *)
Fixpoint match_all_fuel (fuel : nat) (r : re) (s : jstr) : list jstr :=
  match fuel with
  | O => []
  | S f =>
      match search r s with
      | None => []
      | Some (txt, rest, _) =>
          match txt, rest with
          | [], [] => [[]]
          | [], _ :: rest' => [] :: match_all_fuel f r rest'
          | _, _ => txt :: match_all_fuel f r rest
          end
      end
  end.

Definition match_all (r : re) (s : jstr) : list jstr :=
  match_all_fuel (S (List.length s)) r s.

(** [s.replace(/^r/, '')]. *)
Definition replace_prefix (r : re) (s : jstr) : jstr :=
  match m_top r s with Some (rest, _) => rest | None => s end.

Fixpoint rseq (rs : list re) : re :=
  match rs with
  | [] => REps
  | [r] => r
  | r :: rs' => RSeq r (rseq rs')
  end.

Definition opt (r : re) : re := RAlt r REps.
Definition chr (x : N) : N -> bool := fun c => (c =? x)%N.
(** A letter under the i flag (ASCII: no other code unit canonicalises to it). *)
Definition chr_i (x : N) : N -> bool := fun c => (c =? x)%N || (c =? x - 32)%N.

End Regex.

(* ------------------------------------------------------------------ *)
(** ** TimeNormalizer: [import-course-schedule-production.ts] *)

Module TimeNormalizer.
Import Js Regex.

(** [/(\d{1,2}):?(\d{2})?\s*(a\.?m\.?|p\.?m\.?)/i] *)
Definition meridiem_re : re :=
  rseq [ RGroup 1 (RRep is_digit 1 (Some 2));
         RRep (chr 58) 0 (Some 1);
         opt (RGroup 2 (RRep is_digit 2 (Some 2)));
         RRep is_ws 0 None;
         RGroup 3 (RAlt
           (rseq [RClass (chr_i 97); RRep (chr 46) 0 (Some 1);
                  RClass (chr_i 109); RRep (chr 46) 0 (Some 1)])
           (rseq [RClass (chr_i 112); RRep (chr 46) 0 (Some 1);
                  RClass (chr_i 109); RRep (chr 46) 0 (Some 1)])) ].

(** [/(\d{1,2}):(\d{2})/] *)
Definition simple_re : re :=
  rseq [ RGroup 1 (RRep is_digit 1 (Some 2));
         RClass (chr 58);
         RGroup 2 (RRep is_digit 2 (Some 2)) ].

(** [m[i] || dflt] *)
Definition cap_or (i : nat) (c : caps) (dflt : jstr) : jstr :=
  match cap_get i c with
  | Some ((_ :: _) as v) => v
  | _ => dflt
  end.

Definition parse_cap (i : nat) (c : caps) : option Z :=
  match cap_get i c with Some v => parseInt v | None => None end.

Definition fmt_hhmm (hours : option Z) (minutes : jstr) : jstr :=
  padStart 2 48 (number_to_jstr hours) ++ [58%N] ++ padStart 2 48 minutes.

Definition normalizeTime (timeStr : jstr) : jstr :=
  if jstr_eqb timeStr [] || jstr_eqb (trim timeStr) []
     || jstr_eqb (toUpperCase (trim timeStr)) (js "NULL")
  then js "09:00"
  else
    let cleaned := replace_char 46 58 (trim timeStr) in
    match exec meridiem_re cleaned with
    | None =>
        match exec simple_re cleaned with
        | Some sm => fmt_hhmm (parse_cap 1 sm) (cap_or 2 sm (js "00"))
        | None => js "09:00"
        end
    | Some tm =>
        let hours := parse_cap 1 tm in
        let minutes := cap_or 2 tm (js "00") in
        let period := toLowerCase (cap_or 3 tm []) in
        let hours :=
          if existsb (N.eqb 112) period
             && negb (match hours with Some 12%Z => true | _ => false end)
          then option_map (Z.add 12) hours
          else if existsb (N.eqb 97) period
                  && (match hours with Some 12%Z => true | _ => false end)
          then Some 0%Z
          else hours in
        fmt_hhmm hours minutes
    end.

(** [Number(s)] on the decimal-integer fragment of StringNumericLiteral
    (white space around digits, or blank for 0).  Strings outside the
    fragment are mapped to NaN ([None]); the caller below only passes the
    output of [normalizeTime], whose components are digit runs. *)
Definition Number_ (s : jstr) : option Z :=
  let t := trim s in
  match t with
  | [] => Some 0%Z
  | _ => if forallb is_digit t then Some (digits_value t) else None
  end.

Definition num_at (l : list (option Z)) (i : nat) : option Z :=
  match nth_error l i with Some x => x | None => None end.

Definition olift2 (f : Z -> Z -> Z) (a b : option Z) : option Z :=
  match a, b with Some x, Some y => Some (f x y) | _, _ => None end.

Definition calculateDurationMinutes (startTime endTime : jstr) : Z :=
  let start := normalizeTime startTime in
  let end_ := normalizeTime endTime in
  let sp := map Number_ (split_on 58 start) in
  let ep := map Number_ (split_on 58 end_) in
  let startTotal := olift2 Z.add (option_map (Z.mul 60) (num_at sp 0)) (num_at sp 1) in
  let endTotal := olift2 Z.add (option_map (Z.mul 60) (num_at ep 0)) (num_at ep 1) in
  match olift2 Z.sub endTotal startTotal with
  | Some d =>
      let d := if (d <? 0)%Z then (d + 24 * 60)%Z else d in
      if (0 <? d)%Z then d else 120%Z
  | None => 120%Z   (* NaN > 0 is false *)
  end.

End TimeNormalizer.

(* ------------------------------------------------------------------ *)
(** ** List fields of the production import: [parseModuleTitle] and the
    bullet-point [parseSubmoduleTitle] *)

Module ListFieldNormalizer.
Import Js Regex.

Definition is_sentinel (s : jstr) : bool :=
  jstr_eqb s [] || jstr_eqb (trim s) [] || jstr_eqb (toUpperCase (trim s)) (js "NULL").

Definition nonempty (s : jstr) : bool := match s with [] => false | _ => true end.

Definition parseModuleTitle (moduleTitle : jstr) : list jstr :=
  if is_sentinel moduleTitle then []
  else filter nonempty (map trim (split_on 124 moduleTitle)).

(** [/^[\s•\-\*]+/] *)
Definition bullet_re : re :=
  RRep (fun c => is_ws c || (c =? 8226)%N || (c =? 45)%N || (c =? 42)%N) 1 None.

Definition parseSubmoduleTitle (submoduleTitle : jstr) : list jstr :=
  if is_sentinel submoduleTitle then []
  else filter nonempty
         (map (fun line => trim (replace_prefix bullet_re line))
              (split_on 10 submoduleTitle)).

End ListFieldNormalizer.

(* ------------------------------------------------------------------ *)
(** ** [JSON.parse] *)

Module Json.
Import Js.

Inductive json : Type :=
| JNull
| JBool (b : bool)
| JNum (lexeme : jstr)
| JStr (s : jstr)
| JArr (l : list json)
| JObj (l : list (jstr * json)).

Definition json_ws (c : N) : bool :=
  (c =? 32)%N || (c =? 9)%N || (c =? 10)%N || (c =? 13)%N.

Fixpoint skip_ws (s : jstr) : jstr :=
  match s with
  | c :: s' => if json_ws c then skip_ws s' else s
  | [] => []
  end.

Fixpoint prefixb (p s : jstr) : option jstr :=
  match p, s with
  | [], _ => Some s
  | x :: p', y :: s' => if (x =? y)%N then prefixb p' s' else None
  | _ :: _, [] => None
  end.

Definition hex_val (c : N) : option N :=
  if is_digit c then Some (c - 48)%N
  else if (97 <=? c)%N && (c <=? 102)%N then Some (c - 87)%N
  else if (65 <=? c)%N && (c <=? 70)%N then Some (c - 55)%N
  else None.

Definition simple_escape (e : N) : option N :=
  if (e =? 34)%N then Some 34%N else if (e =? 92)%N then Some 92%N
  else if (e =? 47)%N then Some 47%N else if (e =? 98)%N then Some 8%N
  else if (e =? 102)%N then Some 12%N else if (e =? 110)%N then Some 10%N
  else if (e =? 114)%N then Some 13%N else if (e =? 116)%N then Some 9%N
  else None.

(** The body of a string literal, after its opening quote. *)
Fixpoint string_body (s : jstr) (acc : jstr) : option (jstr * jstr) :=
  match s with
  | [] => None
  | c :: r =>
      if (c =? 34)%N then Some (rev acc, r)
      else if (c =? 92)%N then
        match r with
        | e :: r1 =>
            match simple_escape e with
            | Some x => string_body r1 (x :: acc)
            | None =>
                if (e =? 117)%N then
                  match r1 with
                  | h1 :: h2 :: h3 :: h4 :: r2 =>
                      match hex_val h1, hex_val h2, hex_val h3, hex_val h4 with
                      | Some a, Some b, Some c', Some d =>
                          string_body r2 ((((a * 16 + b) * 16 + c') * 16 + d)%N :: acc)
                      | _, _, _, _ => None
                      end
                  | _ => None
                  end
                else None
            end
        | [] => None
        end
      else if (c <? 32)%N then None
      else string_body r (c :: acc)
  end.

Definition digit_run (s : jstr) : jstr * jstr :=
  let d := digits_prefix s in (d, skipn (List.length d) s).

(** A JSON number: optional minus, [0] or a nonzero digit followed by
    digits, an optional fraction, an optional exponent. *)
Definition number_lit (s : jstr) : option (jstr * jstr) :=
  let '(sg, s1) := match s with 45%N :: r => ([45%N], r) | _ => ([], s) end in
  let int_part :=
    match s1 with
    | 48%N :: r => Some ([48%N], r)
    | c :: _ => if is_digit c then Some (digit_run s1) else None
    | [] => None
    end in
  match int_part with
  | None => None
  | Some (ip, s2) =>
      let frac :=
        match s2 with
        | 46%N :: r =>
            match digit_run r with
            | ([], _) => None
            | (fd, r') => Some (46%N :: fd, r')
            end
        | _ => Some ([], s2)
        end in
      match frac with
      | None => None
      | Some (fp, s3) =>
          let expo :=
            match s3 with
            | e :: r =>
                if (e =? 101)%N || (e =? 69)%N then
                  let '(es, r1) :=
                    match r with
                    | x :: r' => if (x =? 43)%N || (x =? 45)%N then ([x], r') else ([], r)
                    | [] => ([], r)
                    end in
                  match digit_run r1 with
                  | ([], _) => None
                  | (ed, r2) => Some (e :: es ++ ed, r2)
                  end
                else Some ([], s3)
            | [] => Some ([], s3)
            end in
          match expo with
          | None => None
          | Some (xp, s4) => Some (sg ++ ip ++ fp ++ xp, s4)
          end
      end
  end.

Fixpoint value (fuel : nat) (s : jstr) : option (json * jstr) :=
  match fuel with
  | O => None
  | S f =>
      let s := skip_ws s in
      match s with
      | [] => None
      | c :: r =>
          if (c =? 34)%N then
            match string_body r [] with Some (x, r') => Some (JStr x, r') | None => None end
          else if (c =? 91)%N then
            let r := skip_ws r in
            match r with
            | 93%N :: r' => Some (JArr [], r')
            | _ =>
                (fix elems (g : nat) (t : jstr) (acc : list json) : option (json * jstr) :=
                   match g with
                   | O => None
                   | S g' =>
                       match value f t with
                       | None => None
                       | Some (v, t1) =>
                           match skip_ws t1 with
                           | 44%N :: t2 => elems g' t2 (v :: acc)
                           | 93%N :: t2 => Some (JArr (rev (v :: acc)), t2)
                           | _ => None
                           end
                       end
                   end) f r []
            end
          else if (c =? 123)%N then
            let r := skip_ws r in
            match r with
            | 125%N :: r' => Some (JObj [], r')
            | _ =>
                (fix members (g : nat) (t : jstr) (acc : list (jstr * json))
                   : option (json * jstr) :=
                   match g with
                   | O => None
                   | S g' =>
                       match skip_ws t with
                       | 34%N :: t0 =>
                           match string_body t0 [] with
                           | None => None
                           | Some (k, t1) =>
                               match skip_ws t1 with
                               | 58%N :: t2 =>
                                   match value f t2 with
                                   | None => None
                                   | Some (v, t3) =>
                                       match skip_ws t3 with
                                       | 44%N :: t4 => members g' t4 ((k, v) :: acc)
                                       | 125%N :: t4 => Some (JObj (rev ((k, v) :: acc)), t4)
                                       | _ => None
                                       end
                                   end
                               | _ => None
                               end
                           end
                       | _ => None
                       end
                   end) f r []
            end
          else
            match prefixb (js "null") s with
            | Some r' => Some (JNull, r')
            | None =>
            match prefixb (js "true") s with
            | Some r' => Some (JBool true, r')
            | None =>
            match prefixb (js "false") s with
            | Some r' => Some (JBool false, r')
            | None =>
                match number_lit s with
                | Some (lx, r') => Some (JNum lx, r')
                | None => None
                end
            end end end
      end
  end.

(** [JSON.parse(text)]; [None] is a thrown SyntaxError. *)
Definition parse (text : jstr) : option json :=
  match value (S (List.length text)) text with
  | Some (v, r) => match skip_ws r with [] => Some v | _ => None end
  | None => None
  end.

End Json.

(* ------------------------------------------------------------------ *)
(** ** The array-literal import script (part_001) *)

Module ArrayLiteralImport.
Import Js Regex.

(** [/'([^']+)'/g] *)
Definition quoted_re : re :=
  rseq [RClass (chr 39); RGroup 1 (RRep (fun c => negb (c =? 39)%N) 1 None); RClass (chr 39)].

Definition keep_item (it : Json.json) : option jstr :=
  match it with
  | Json.JStr ((_ :: _) as x) => if jstr_eqb (trim x) [] then None else Some x
  | _ => None
  end.

(** [None] is [undefined]. *)
Definition parseSubmoduleTitle (submoduleTitle : jstr) : option (list jstr) :=
  if jstr_eqb submoduleTitle [] || jstr_eqb (trim submoduleTitle) []
     || jstr_eqb (toUpperCase (trim submoduleTitle)) (js "NULL")
     || jstr_eqb (trim submoduleTitle) (js "#NAME?")
  then None
  else
    let trimmed := trim submoduleTitle in
    if jstr_eqb trimmed (js "[]") || jstr_eqb trimmed [] then None
    else
      let jsonString := replace_char 39 34 trimmed in
      match Json.parse jsonString with
      | Some (Json.JArr parsed) =>
          let filtered := flat_map (fun it => match keep_item it with
                                              | Some x => [x] | None => [] end) parsed in
          match filtered with [] => None | _ => Some filtered end
      | Some _ => None
      | None =>
          let matches := match_all quoted_re trimmed in
          match matches with
          | [] => None
          | _ =>
              let items := filter ListFieldNormalizer.nonempty
                             (map (fun m => trim (filter (fun c => negb (c =? 39)%N) m)) matches) in
              match items with [] => None | _ => Some items end
          end
      end.

End ArrayLiteralImport.

(* ------------------------------------------------------------------ *)
(** ** ScheduleBuilder: templates, [groupScheduleBySession],
    [flattenSchedule] *)

Module ScheduleTransform.
Import Js.

Inductive DurationUnit := days | hours | half_day.

Record SessionSlot := { sname : jstr; sstartTime : jstr; sendTime : jstr }.

Definition slot (n a b : string) : SessionSlot :=
  {| sname := js n; sstartTime := js a; sendTime := js b |}.

Definition FULL_DAY_SESSIONS : list SessionSlot :=
  [ slot "Session 1" "09:00" "11:00"; slot "Session 2" "11:00" "14:00";
    slot "Session 3" "14:00" "16:00"; slot "Session 4" "16:00" "18:00" ].

Definition HALF_DAY_SESSIONS : list SessionSlot :=
  [ slot "Session 1" "09:00" "11:00"; slot "Session 2" "11:00" "14:00" ].

Definition HOUR_SESSIONS : list SessionSlot :=
  [ slot "Session 1" "09:00" "11:00"; slot "Session 2" "11:00" "14:00" ].

(** Numbers are exact rationals here; [Math.round] is [floor(x + 1/2)]. *)
Definition Qltb (a b : Q) : bool := negb (Qle_bool b a).
Definition math_round (x : Q) : Z := Qfloor (x + (1 # 2)).

Definition getSessionsAndDays (requiredDurationHours : Q) (durationUnit : DurationUnit)
  : list SessionSlot * Z :=
  match durationUnit with
  | half_day => (HALF_DAY_SESSIONS, 1%Z)
  | days =>
      let daysCount := if Qltb 0 requiredDurationHours
                       then math_round requiredDurationHours else 1%Z in
      (FULL_DAY_SESSIONS, daysCount)
  | hours =>
      let sessionsCount := if Qltb 2 requiredDurationHours then 2 else 1 in
      (firstn sessionsCount HOUR_SESSIONS, 1%Z)
  end.

(** A schedule row as the builder receives it.  [module_title] is the raw
    JavaScript value ([None] is undefined); [submodules] is typed
    [string[]]. *)
Record ScheduleItem := {
  id : jstr;
  day_number : Z;
  start_time : jstr;
  end_time : jstr;
  module_title : option Json.json;
  submodule_title : option (list jstr);
  duration_minutes : Z;
  submodules : list jstr }.

Record ModuleData := { mid : jstr; moduleTitle : jstr; msubmodules : list jstr }.

Record SessionData := {
  dayNumber : Z; startTime : jstr; endTime : jstr;
  durationMinutes : Z; modules : list ModuleData }.

(** A JavaScript [Map] with string keys, in insertion order. *)
Definition SessionMap := list (jstr * SessionData).

Fixpoint map_get (k : jstr) (mp : SessionMap) : option SessionData :=
  match mp with
  | [] => None
  | (k', v) :: mp' => if jstr_eqb k k' then Some v else map_get k mp'
  end.

Fixpoint map_set (k : jstr) (v : SessionData) (mp : SessionMap) : SessionMap :=
  match mp with
  | [] => [(k, v)]
  | (k', v') :: mp' => if jstr_eqb k k' then (k, v) :: mp' else (k', v') :: map_set k v mp'
  end.

(** [`${day}-${startTime}`] *)
Definition session_key (day : Z) (startTime : jstr) : jstr :=
  z_to_jstr day ++ [45%N] ++ startTime.

Definition item_key (it : ScheduleItem) : jstr := session_key (day_number it) (start_time it).

(** [for (let day = 1; day <= daysCount; day++)] *)
Definition day_range (daysCount : Z) : list Z :=
  map Z.of_nat (seq 1 (Z.to_nat daysCount)).

Definition empty_session (day : Z) (s : SessionSlot) : SessionData :=
  {| dayNumber := day; startTime := sstartTime s; endTime := sendTime s;
     durationMinutes := 120; modules := [] |}.

Definition with_module (s : SessionData) (md : ModuleData) : SessionData :=
  {| dayNumber := dayNumber s; startTime := startTime s; endTime := endTime s;
     durationMinutes := durationMinutes s; modules := modules s ++ [md] |}.

Section Group.

(** [`module-${Date.now()}-${Math.random()}`], the id given to a row
    without one. *)
Variable fresh_id : ScheduleItem -> jstr.

Definition to_module (it : ScheduleItem) : ModuleData :=
  {| mid := match id it with [] => fresh_id it | i => i end;
     moduleTitle := match module_title it with
                    | Some (Json.JStr s) => s
                    | _ => []
                    end;
     msubmodules := submodules it |}.

Definition init_sessions (sessions : list SessionSlot) (daysCount : Z) : SessionMap :=
  fold_left (fun mp day =>
               fold_left (fun mp s => map_set (session_key day (sstartTime s))
                                              (empty_session day s) mp)
                         sessions mp)
            (day_range daysCount) [].

Definition add_item (mp : SessionMap) (it : ScheduleItem) : SessionMap :=
  let key := item_key it in
  match map_get key mp with
  | Some session => map_set key (with_module session (to_module it)) mp
  | None => mp
  end.

Definition groupScheduleBySession (sessions : list SessionSlot) (daysCount : Z)
  (scheduleItems : list ScheduleItem) : SessionMap :=
  fold_left add_item scheduleItems (init_sessions sessions daysCount).

End Group.

(** The session [s] after pushing the modules [ms], in order. *)
Definition with_modules (s : SessionData) (ms : list ModuleData) : SessionData :=
  {| dayNumber := dayNumber s; startTime := startTime s; endTime := endTime s;
     durationMinutes := durationMinutes s; modules := modules s ++ ms |}.

Definition flattenSchedule (sessionMap : SessionMap) : list ScheduleItem :=
  flat_map (fun '(_, session) =>
              map (fun md =>
                     {| id := mid md;
                        day_number := dayNumber session;
                        start_time := startTime session;
                        end_time := endTime session;
                        module_title := Some (Json.JStr (moduleTitle md));
                        submodule_title := match msubmodules md with
                                           | [] => None | l => Some l end;
                        duration_minutes := durationMinutes session;
                        submodules := msubmodules md |})
                  (modules session))
           sessionMap.

(** The tuple the round-trip law compares. *)
Definition entry_tuple (it : ScheduleItem) : Z * jstr * option Json.json * list jstr :=
  (day_number it, start_time it, module_title it, submodules it).

(** The template's slots, in the order the builder creates them. *)
Definition slots (sessions : list SessionSlot) (daysCount : Z) : list (Z * SessionSlot) :=
  flat_map (fun d => map (fun s => (d, s)) sessions) (day_range daysCount).

Definition slot_keys (sessions : list SessionSlot) (daysCount : Z) : list jstr :=
  map (fun '(d, s) => session_key d (sstartTime s)) (slots sessions daysCount).

Definition valid_slot (sessions : list SessionSlot) (daysCount : Z) (it : ScheduleItem) : Prop :=
  exists d s, In (d, s) (slots sessions daysCount)
              /\ day_number it = d /\ start_time it = sstartTime s.

(** A row used by the witnesses below: day 1, 09:00, a string title. *)
Definition sample_row : ScheduleItem :=
  {| id := js "row-1"; day_number := 1; start_time := js "09:00"; end_time := js "11:00";
     module_title := Some (Json.JStr (js "Intro")); submodule_title := None;
     duration_minutes := 120; submodules := [js "Basics"] |}.

(** A row whose title is the JSON array the array-storing import writes. *)
Definition array_title_row : ScheduleItem :=
  {| id := js "row-2"; day_number := 1; start_time := js "11:00"; end_time := js "14:00";
     module_title := Some (Json.JArr [Json.JStr (js "Intro")]); submodule_title := None;
     duration_minutes := 180; submodules := [] |}.

(** A stale row: day 2 of a one-day template. *)
Definition stale_row : ScheduleItem :=
  {| id := js "row-3"; day_number := 2; start_time := js "09:00"; end_time := js "11:00";
     module_title := Some (Json.JStr (js "Old")); submodule_title := None;
     duration_minutes := 120; submodules := [] |}.

End ScheduleTransform.

(* ------------------------------------------------------------------ *)
(** ** Import scripts: [importCourseSchedule] (skip-if-exists) and
    [cleanAndImportCourseSchedule] (delete-all, then import) *)

Module ScheduleImport.
Import Js TimeNormalizer ListFieldNormalizer.

(** A parsed CSV record.  Only [id] is kept optional: every other field
    is used behind a falsiness test, [parseInt], [normalizeTime] or
    [parseDate], where an absent column behaves as the empty string, while
    [record.id.trim()] throws on an absent one. *)
Record CourseScheduleRow := {
  r_id : option jstr; r_course_id : jstr; r_day_number : jstr;
  r_start_time : jstr; r_end_time : jstr; r_module_title : jstr;
  r_submodule_title : jstr; r_duration_minutes : jstr; r_created_at : jstr }.

(** A stored [courseSchedule] row of the array-storing import; a date is
    its time value. *)
Record CourseSchedule := {
  cs_id : jstr; cs_courseId : jstr; cs_dayNumber : Z;
  cs_startTime : jstr; cs_endTime : jstr; cs_moduleTitle : list jstr;
  cs_submoduleTitle : option (list jstr); cs_durationMinutes : Z;
  cs_createdAt : Z }.

Record Counters := { successCount : nat; skippedCount : nat; errorCount : nat }.

Definition zero_counters : Counters := {| successCount := 0; skippedCount := 0; errorCount := 0 |}.

Inductive RowOutcome := Imported | Skipped | Errored.

Definition bump (c : Counters) (o : RowOutcome) : Counters :=
  match o with
  | Imported => {| successCount := S (successCount c); skippedCount := skippedCount c; errorCount := errorCount c |}
  | Skipped => {| successCount := successCount c; skippedCount := S (skippedCount c); errorCount := errorCount c |}
  | Errored => {| successCount := successCount c; skippedCount := skippedCount c; errorCount := S (errorCount c) |}
  end.

(** [prisma.courseSchedule.findUnique({ where: { id } })] *)
Definition findUnique (store : list CourseSchedule) (id : jstr) : option CourseSchedule :=
  find (fun r => jstr_eqb (cs_id r) id) store.

(** [prisma.courseSchedule.create]: the primary key is unique, a duplicate
    is rejected (the call throws). *)
Definition create (store : list CourseSchedule) (data : CourseSchedule)
  : option (list CourseSchedule) :=
  match findUnique store (cs_id data) with
  | Some _ => None
  | None => Some (store ++ [data])
  end.

Section Production.
(** [prisma.course.findUnique({ where: { id } })] succeeds *)
Variable course_exists : jstr -> bool.
(** [parseDate], with the clock of [new Date()] *)
Variable parseDate : jstr -> Z.

(** The body of the loop of [importCourseSchedule]. *)
Definition importRow (store : list CourseSchedule) (record : CourseScheduleRow)
  : list CourseSchedule * RowOutcome :=
  if jstr_eqb (r_course_id record) [] || jstr_eqb (trim (r_course_id record)) []
  then (store, Skipped)
  else if negb (course_exists (trim (r_course_id record))) then (store, Skipped)
  else
    match r_id record with
    | None => (store, Errored)
    | Some rid =>
        match findUnique store (trim rid) with
        | Some _ => (store, Skipped)
        | None =>
            match parseInt (r_day_number record) with
            | None => (store, Skipped)
            | Some dayNumber =>
                if (dayNumber <? 1)%Z then (store, Skipped) else
                let startTime := normalizeTime (r_start_time record) in
                let endTime := normalizeTime (r_end_time record) in
                let moduleTitleArray := parseModuleTitle (r_module_title record) in
                match moduleTitleArray with
                | [] => (store, Skipped)
                | _ :: _ =>
                    let submoduleTitleArray := parseSubmoduleTitle (r_submodule_title record) in
                    let calc := calculateDurationMinutes (r_start_time record) (r_end_time record) in
                    let durationMinutes :=
                      match parseInt (r_duration_minutes record) with
                      | None => calc
                      | Some d => if (d <=? 0)%Z then calc else d
                      end in
                    let createdAt := parseDate (r_created_at record) in
                    let data :=
                      {| cs_id := trim rid; cs_courseId := trim (r_course_id record);
                         cs_dayNumber := dayNumber; cs_startTime := startTime;
                         cs_endTime := endTime; cs_moduleTitle := moduleTitleArray;
                         cs_submoduleTitle :=
                           match submoduleTitleArray with [] => None | _ => Some submoduleTitleArray end;
                         cs_durationMinutes := durationMinutes; cs_createdAt := createdAt |} in
                    match create store data with
                    | None => (store, Errored)
                    | Some store' => (store', Imported)
                    end
                end
            end
        end
    end.

(** The [for] loop over the records, with its counters. *)
Fixpoint importRows (store : list CourseSchedule) (c : Counters) (records : list CourseScheduleRow)
  : list CourseSchedule * Counters :=
  match records with
  | [] => (store, c)
  | record :: rest =>
      let '(store', o) := importRow store record in
      importRows store' (bump c o) rest
  end.

(** [importCourseSchedule]; [None] for the CSV file is a missing file,
    which throws before the loop (result [None]: a fatal error). *)
Definition importCourseSchedule (store : list CourseSchedule) (csv : option (list CourseScheduleRow))
  : list CourseSchedule * option Counters :=
  match csv with
  | None => (store, None)
  | Some records => let '(s, c) := importRows store zero_counters records in (s, Some c)
  end.

End Production.

(** [[0-9a-f]] under the i flag. *)
Definition hex_i (c : N) : bool :=
  is_digit c || ((97 <=? c)%N && (c <=? 102)%N) || ((65 <=? c)%N && (c <=? 70)%N).

(** [/^[0-9a-f]{8}-[0-9a-f]{4}-[0-9a-f]{4}-[0-9a-f]{4}-[0-9a-f]{12}$/i] *)
Definition uuid_re : Regex.re :=
  Regex.rseq [ Regex.RRep hex_i 8 (Some 8); Regex.RClass (Regex.chr 45);
               Regex.RRep hex_i 4 (Some 4); Regex.RClass (Regex.chr 45);
               Regex.RRep hex_i 4 (Some 4); Regex.RClass (Regex.chr 45);
               Regex.RRep hex_i 4 (Some 4); Regex.RClass (Regex.chr 45);
               Regex.RRep hex_i 12 (Some 12) ].

(** [uuidRegex.test(s)]: the pattern is anchored at both ends. *)
Definition uuid_test (s : jstr) : bool :=
  match Regex.m uuid_re s [] (fun s' c => match s' with [] => Some (s', c) | _ => None end) with
  | Some _ => true
  | None => false
  end.

Section CleanImport.
(** The stored row of the delete-all import. *)
Context {Entry : Type}.
(** The data object built from a record that passed the checks, with its
    parsed day number: normalised times, cleaned module title, parsed
    submodule list, duration, creation date and the id when it is a UUID.
    None of these steps throws (each parser has its own fallback). *)
Variable build : CourseScheduleRow -> Z -> Entry.
(** [prisma.courseSchedule.create]: [None] when the call throws. *)
Variable createEntry : list Entry -> Entry -> option (list Entry).

(** The checks of the loop body of [cleanAndImportCourseSchedule]:
    [None] when the row is skipped as invalid data. *)
Definition prepareRow (record : CourseScheduleRow) : option Entry :=
  if jstr_eqb (r_course_id record) [] || negb (uuid_test (r_course_id record)) then None
  else if jstr_eqb (r_module_title record) [] || jstr_eqb (trim (r_module_title record)) []
  then None
  else
    match parseInt (r_day_number record) with
    | None => None
    | Some dayNumber => if (dayNumber <? 1)%Z then None else Some (build record dayNumber)
    end.

Definition cleanRow (store : list Entry) (record : CourseScheduleRow) : list Entry * RowOutcome :=
  match prepareRow record with
  | None => (store, Skipped)
  | Some data =>
      match createEntry store data with
      | None => (store, Errored)
      | Some store' => (store', Imported)
      end
  end.

Fixpoint cleanRows (store : list Entry) (c : Counters) (records : list CourseScheduleRow)
  : list Entry * Counters :=
  match records with
  | [] => (store, c)
  | record :: rest =>
      let '(store', o) := cleanRow store record in
      cleanRows store' (bump c o) rest
  end.

(** [cleanAndImportCourseSchedule].  [delete_ok]: [$connect()] and
    [deleteMany({})] succeed (a single statement: it deletes every row or
    none); when they throw, the [catch] ends the run as a fatal error
    ([None] counters) before anything is deleted.  After the delete, which
    runs in no transaction, a missing or unreadable CSV file ([None])
    throws, a fatal error; otherwise each row is imported, skipped or
    counted as an error on its own.  [disconnect_ok]: the final
    [$disconnect()] succeeds; when it throws, the run also ends in the
    [catch], after the rows were written. *)
Definition cleanAndImportCourseSchedule (delete_ok disconnect_ok : bool) (store : list Entry)
  (csv : option (list CourseScheduleRow)) : list Entry * option Counters :=
  if negb delete_ok then (store, None)
  else
    let store0 := @nil Entry in
    match csv with
    | None => (store0, None)
    | Some records =>
        let '(s, c) := cleanRows store0 zero_counters records in
        if disconnect_ok then (s, Some c) else (s, None)
    end.

End CleanImport.

(** Example rows. *)
Definition csv_row (id course day mt : string) : CourseScheduleRow :=
  {| r_id := Some (js id); r_course_id := js course; r_day_number := js day;
     r_start_time := js "9.00 a.m"; r_end_time := js "11.00 a.m";
     r_module_title := js mt; r_submodule_title := js "- Basics";
     r_duration_minutes := js ""; r_created_at := js "" |}.

(** A course id that passes [uuidRegex]. *)
Definition sample_uuid : string := "123e4567-e89b-12d3-a456-426614174000".

Definition stored_row : CourseSchedule :=
  {| cs_id := js "s1"; cs_courseId := js "c1"; cs_dayNumber := 1;
     cs_startTime := js "09:00"; cs_endTime := js "11:00"; cs_moduleTitle := [js "Intro"];
     cs_submoduleTitle := None; cs_durationMinutes := 120; cs_createdAt := 0 |}.

(** What a stored row imported from a record holds: the record's trimmed
    identifier and course, its parsed day number and normalised times, its
    parsed title lists and a positive duration. *)
Definition imported_from (course_exists : jstr -> bool) (r : CourseScheduleRow) (d : CourseSchedule)
  : Prop :=
  (exists rid, r_id r = Some rid /\ cs_id d = trim rid)
  /\ cs_courseId d = trim (r_course_id r) /\ cs_courseId d <> []
  /\ course_exists (cs_courseId d) = true
  /\ parseInt (r_day_number r) = Some (cs_dayNumber d) /\ (1 <= cs_dayNumber d)%Z
  /\ cs_startTime d = normalizeTime (r_start_time r)
  /\ cs_endTime d = normalizeTime (r_end_time r)
  /\ cs_moduleTitle d = parseModuleTitle (r_module_title r) /\ cs_moduleTitle d <> []
  /\ (forall l, cs_submoduleTitle d = Some l -> l = parseSubmoduleTitle (r_submodule_title r) /\ l <> [])
  /\ (cs_submoduleTitle d = None -> parseSubmoduleTitle (r_submodule_title r) = [])
  /\ (0 < cs_durationMinutes d)%Z.

End ScheduleImport.

(* ------------------------------------------------------------------ *)
(** ** ScheduleBuilder: the edit handlers and the initialising effect *)

Module ScheduleEdit.
Import Js ScheduleTransform.

(** The session [s] with its module list replaced. *)
Definition set_modules (s : SessionData) (ms : list ModuleData) : SessionData :=
  {| dayNumber := dayNumber s; startTime := startTime s; endTime := endTime s;
     durationMinutes := durationMinutes s; modules := ms |}.

(** Mutating the object [l.find(p)] in place: each module of a session is
    a distinct object (each is pushed as a fresh literal), so this is the
    first element satisfying [p]. *)
Fixpoint update_first {A : Type} (p : A -> bool) (f : A -> A) (l : list A) : list A :=
  match l with
  | [] => []
  | x :: l' => if p x then f x :: l' else x :: update_first p f l'
  end.

(** [{ id, moduleTitle: '', submodules: [] }] *)
Definition new_module (new_id : jstr) : ModuleData :=
  {| mid := new_id; moduleTitle := []; msubmodules := [] |}.

(** [m => m.id === moduleId] *)
Definition module_is (moduleId : jstr) (m : ModuleData) : bool := jstr_eqb (mid m) moduleId.

Definition set_title (title : jstr) (m : ModuleData) : ModuleData :=
  {| mid := mid m; moduleTitle := title; msubmodules := msubmodules m |}.

(** [module.submodules.push('')] *)
Definition push_submodule (m : ModuleData) : ModuleData :=
  {| mid := mid m; moduleTitle := moduleTitle m; msubmodules := msubmodules m ++ [[]] |}.

(** [submodules.filter((_, i) => i !== submoduleIndex)], for an integer
    index. *)
Fixpoint drop_index (i k : Z) (l : list jstr) : list jstr :=
  match l with
  | [] => []
  | x :: l' => if Z.eqb i k then drop_index (i + 1) k l' else x :: drop_index (i + 1) k l'
  end.

Definition remove_submodule (k : Z) (m : ModuleData) : ModuleData :=
  {| mid := mid m; moduleTitle := moduleTitle m; msubmodules := drop_index 0 k (msubmodules m) |}.

Section Edit.
(** The id [groupScheduleBySession] gives a row without one. *)
Variable fresh_id : ScheduleItem -> jstr.
(** The template of [getSessionsAndDays]. *)
Variable sessions : list SessionSlot.
Variable daysCount : Z.
(** The [scheduleItems] prop. *)
Variable scheduleItems : list ScheduleItem.

Definition currentMap : SessionMap :=
  groupScheduleBySession fresh_id sessions daysCount scheduleItems.

(** The handlers: [Some items] is the argument of [onChange], [None] is no
    call.  The session object found in the map is mutated in place, which
    [map_set] on its own key renders (a [Map] keeps a key's position). *)
Definition addModule (new_id : jstr) (day : Z) (startTime : jstr) : option (list ScheduleItem) :=
  let key := session_key day startTime in
  match map_get key currentMap with
  | Some session =>
      Some (flattenSchedule (map_set key (with_module session (new_module new_id)) currentMap))
  | None => None
  end.

Definition removeModule (day : Z) (startTime moduleId : jstr) : option (list ScheduleItem) :=
  let key := session_key day startTime in
  match map_get key currentMap with
  | Some session =>
      Some (flattenSchedule
              (map_set key (set_modules session
                              (filter (fun m => negb (module_is moduleId m)) (modules session)))
                       currentMap))
  | None => None
  end.

(** The handlers that look the module up with [find] and mutate it. *)
Definition update_module (day : Z) (startTime moduleId : jstr) (f : ModuleData -> ModuleData)
  : option (list ScheduleItem) :=
  let key := session_key day startTime in
  match map_get key currentMap with
  | Some session =>
      match find (module_is moduleId) (modules session) with
      | Some _ =>
          Some (flattenSchedule
                  (map_set key (set_modules session
                                  (update_first (module_is moduleId) f (modules session)))
                           currentMap))
      | None => None
      end
  | None => None
  end.

Definition updateModuleTitle (day : Z) (startTime moduleId title : jstr) : option (list ScheduleItem) :=
  update_module day startTime moduleId (set_title title).

(** The module's [submodules] array is the one of its row; rows hold
    distinct arrays, as the builder's own output does. *)
Definition addSubmodule (day : Z) (startTime moduleId : jstr) : option (list ScheduleItem) :=
  update_module day startTime moduleId push_submodule.

Definition removeSubmodule (day : Z) (startTime moduleId : jstr) (submoduleIndex : Z)
  : option (list ScheduleItem) :=
  update_module day startTime moduleId (remove_submodule submoduleIndex).

(** The [useEffect]: with no rows and a positive duration, one empty
    module per session; [new_id key] is the id given in the session of
    [key]. *)
Definition initSchedule (new_id : jstr -> jstr) (requiredDurationHours : Q)
  : option (list ScheduleItem) :=
  if match scheduleItems with [] => true | _ => false end && Qltb 0 requiredDurationHours
  then
    Some (flattenSchedule
            (map (fun '(k, s) => (k, with_module s (new_module (new_id k)))) currentMap))
  else None.

End Edit.

(** A row as [flattenSchedule] writes it. *)
Definition row_of (session : SessionData) (md : ModuleData) : ScheduleItem :=
  {| id := mid md; day_number := dayNumber session; start_time := startTime session;
     end_time := endTime session; module_title := Some (Json.JStr (moduleTitle md));
     submodule_title := match msubmodules md with [] => None | l => Some l end;
     duration_minutes := durationMinutes session; submodules := msubmodules md |}.

(** [r.id === moduleId] for a row of the session of [key]. *)
Definition row_is (key moduleId : jstr) (r : ScheduleItem) : bool :=
  jstr_eqb (item_key r) key && jstr_eqb (id r) moduleId.

Definition row_set_title (title : jstr) (r : ScheduleItem) : ScheduleItem :=
  {| id := id r; day_number := day_number r; start_time := start_time r;
     end_time := end_time r; module_title := Some (Json.JStr title);
     submodule_title := submodule_title r; duration_minutes := duration_minutes r;
     submodules := submodules r |}.

Definition row_set_submodules (subs : list jstr) (r : ScheduleItem) : ScheduleItem :=
  {| id := id r; day_number := day_number r; start_time := start_time r;
     end_time := end_time r; module_title := module_title r;
     submodule_title := match subs with [] => None | l => Some l end;
     duration_minutes := duration_minutes r; submodules := subs |}.

(** A session map as the builder makes it: distinct keys, each the key of
    its own session. *)
Definition wf (mp : SessionMap) : Prop :=
  NoDup (map fst mp)
  /\ forall k s, In (k, s) mp -> session_key (dayNumber s) (startTime s) = k.

End ScheduleEdit.

(* ================================================================== *)
(** * Proofs *)

Module JsFacts.
Import Js.

Lemma jstr_eqb_spec (a b : jstr) : jstr_eqb a b = true <-> a = b.
Proof. unfold jstr_eqb. destruct (list_eq_dec N.eq_dec a b); split; congruence. Qed.

Lemma jstr_eqb_refl (a : jstr) : jstr_eqb a a = true.
Proof. apply jstr_eqb_spec; reflexivity. Qed.

Lemma jstr_eqb_neq (a b : jstr) : a <> b -> jstr_eqb a b = false.
Proof. intro H. destruct (jstr_eqb a b) eqn:E; [apply jstr_eqb_spec in E; congruence|reflexivity]. Qed.

Lemma jstr_eqb_sym (a b : jstr) : jstr_eqb a b = jstr_eqb b a.
Proof.
  destruct (jstr_eqb a b) eqn:E1, (jstr_eqb b a) eqn:E2; auto.
  - apply jstr_eqb_spec in E1; subst. rewrite jstr_eqb_refl in E2; discriminate.
  - apply jstr_eqb_spec in E2; subst. rewrite jstr_eqb_refl in E1; discriminate.
Qed.

Lemma digits_no_dash (d : Decimal.uint) : ~ In 45%N (digits_of_uint d).
Proof. induction d; simpl; intuition discriminate. Qed.

Lemma digits_of_uint_inj (d d' : Decimal.uint) :
  digits_of_uint d = digits_of_uint d' -> d = d'.
Proof.
  revert d'; induction d; destruct d'; simpl; intro H; try discriminate;
    try reflexivity; injection H as H; f_equal; auto.
Qed.

Lemma z_to_jstr_pos (z : Z) : (0 < z)%Z -> z_to_jstr z = digits_of_uint (N.to_uint (Z.to_N z)).
Proof. intro H. unfold z_to_jstr. destruct (Z.ltb_spec z 0); [lia|reflexivity]. Qed.

Lemma app_dash_inj (a b s t : jstr) :
  ~ In 45%N a -> ~ In 45%N b -> a ++ 45%N :: s = b ++ 45%N :: t -> a = b /\ s = t.
Proof.
  revert b; induction a as [|x a IH]; intros [|y b] Ha Hb H; simpl in *.
  - injection H as H; auto.
  - injection H as H1 H2; subst; tauto.
  - injection H as H1 H2; subst; tauto.
  - injection H as H1 H2; subst.
    destruct (IH b) as [-> ->]; auto.
Qed.

End JsFacts.

Module ScheduleTransformFacts.
Import Js JsFacts ScheduleTransform.

Lemma session_key_inj (d d' : Z) (s t : jstr) :
  (0 < d)%Z -> (0 < d')%Z -> session_key d s = session_key d' t -> d = d' /\ s = t.
Proof.
  unfold session_key; simpl; intros Hd Hd' H.
  rewrite !z_to_jstr_pos in H by assumption.
  apply app_dash_inj in H; try apply digits_no_dash.
  destruct H as [H ->]; split; [|reflexivity].
  apply digits_of_uint_inj, DecimalN.Unsigned.to_uint_inj in H. lia.
Qed.

Lemma day_range_pos (n d : Z) : In d (day_range n) -> (0 < d)%Z.
Proof. unfold day_range; rewrite in_map_iff; intros [k [<- Hk]]; apply in_seq in Hk; lia. Qed.

Lemma day_range_NoDup (n : Z) : NoDup (day_range n).
Proof. unfold day_range. apply NoDup_map_NoDup_ForallPairs; [|apply seq_NoDup].
  intros x y _ _; lia. Qed.

(** The keys of the template are pairwise distinct when its start times are. *)
Lemma slot_keys_NoDup (sessions : list SessionSlot) (n : Z) :
  NoDup (map sstartTime sessions) -> NoDup (slot_keys sessions n).
Proof.
  intro Hs. unfold slot_keys, slots.
  pose proof (day_range_NoDup n) as Hd.
  assert (Hpos : forall d, In d (day_range n) -> (0 < d)%Z) by apply day_range_pos.
  induction (day_range n) as [|d ds IH]; simpl; [constructor|].
  apply NoDup_cons_iff in Hd as [Hdn Hds].
  rewrite map_app. apply NoDup_app.
  - rewrite map_map. simpl.
    rewrite <- (map_map sstartTime (session_key d)).
    apply NoDup_map_NoDup_ForallPairs; [|exact Hs].
    intros x y _ _ H. apply session_key_inj in H; [tauto| |]; apply Hpos; simpl; auto.
  - apply IH; auto. intros; apply Hpos; simpl; auto.
  - intros k Hk Hk'. rewrite map_map, in_map_iff in Hk. destruct Hk as [s [<- _]].
    rewrite in_map_iff in Hk'. destruct Hk' as [[d' s'] [Hk' Hin]].
    apply in_flat_map in Hin. destruct Hin as [d'' [Hd'' Hin]].
    apply in_map_iff in Hin. destruct Hin as [s'' [Heq _]]. injection Heq as <- <-.
    apply session_key_inj in Hk'; [|apply Hpos; simpl; auto|apply Hpos; simpl; auto].
    destruct Hk' as [-> _]. contradiction.
Qed.

Lemma map_set_fresh (k : jstr) (v : SessionData) (mp : SessionMap) :
  ~ In k (map fst mp) -> map_set k v mp = mp ++ [(k, v)].
Proof.
  induction mp as [|[k' v'] mp IH]; simpl; intro H; [reflexivity|].
  rewrite jstr_eqb_neq by (intro; subst; tauto). rewrite IH; tauto.
Qed.

Lemma fold_set_fresh {X : Type} (kf : X -> jstr) (vf : X -> SessionData) (l : list X)
  (acc : SessionMap) :
  NoDup (map fst acc ++ map kf l) ->
  fold_left (fun mp x => map_set (kf x) (vf x) mp) l acc = acc ++ map (fun x => (kf x, vf x)) l.
Proof.
  revert acc; induction l as [|x l IH]; intros acc H; simpl; [now rewrite app_nil_r|].
  rewrite map_set_fresh.
  - rewrite IH, <- app_assoc; [reflexivity|].
    rewrite map_app, <- app_assoc. exact H.
  - simpl in H. apply NoDup_remove_2 in H. rewrite in_app_iff in H. tauto.
Qed.

Lemma init_sessions_eq (sessions : list SessionSlot) (n : Z) :
  init_sessions sessions n =
  fold_left (fun mp p => map_set ((fun '(d, s) => session_key d (sstartTime s)) p)
                                 ((fun '(d, s) => empty_session d s) p) mp)
            (slots sessions n) [].
Proof.
  unfold init_sessions, slots. generalize (@nil (jstr * SessionData)).
  induction (day_range n) as [|d ds IH]; intro acc; simpl; [reflexivity|].
  rewrite fold_left_app, <- IH. f_equal.
  clear IH. revert acc. induction sessions as [|s ss IHs]; intro acc; simpl; auto.
Qed.

Lemma map_fst_pairs {K V W : Type} (G : K -> V -> W) (mp : list (K * V)) :
  map fst (map (fun '(k, s) => (k, G k s)) mp) = map fst mp.
Proof. induction mp as [|[k v] mp IH]; simpl; congruence. Qed.

Lemma get_set_map (k : jstr) (F : SessionData -> SessionData) (mp : SessionMap) :
  NoDup (map fst mp) ->
  match map_get k mp with Some s => map_set k (F s) mp | None => mp end
  = map (fun '(k', s) => (k', if jstr_eqb k k' then F s else s)) mp.
Proof.
  induction mp as [|[k' v'] mp IH]; intro Hnd; simpl; [reflexivity|].
  apply NoDup_cons_iff in Hnd as [Hk' Hnd].
  destruct (jstr_eqb k k') eqn:E.
  - apply jstr_eqb_spec in E; subst. simpl. rewrite ?jstr_eqb_refl. f_equal.
    transitivity (map (fun p : jstr * SessionData => p) mp); [now rewrite map_id|].
    apply map_ext_in. intros [k'' v''] Hin.
    rewrite jstr_eqb_neq; [reflexivity|].
    intros ->. apply Hk'. apply (in_map fst) in Hin. exact Hin.
  - rewrite <- IH by exact Hnd.
    destruct (map_get k mp); simpl; rewrite ?E; reflexivity.
Qed.

Lemma with_modules_nil (s : SessionData) : with_modules s [] = s.
Proof. destruct s; unfold with_modules; simpl; now rewrite app_nil_r. Qed.

Lemma with_modules_cons (s : SessionData) (md : ModuleData) (ms : list ModuleData) :
  with_modules (with_module s md) ms = with_modules s (md :: ms).
Proof. destruct s; unfold with_modules, with_module; simpl; now rewrite <- app_assoc. Qed.

Lemma fold_add_items (fresh : ScheduleItem -> jstr) (items : list ScheduleItem)
  (mp : SessionMap) :
  NoDup (map fst mp) ->
  fold_left (add_item fresh) items mp =
  map (fun '(k, s) => (k, with_modules s (map (to_module fresh)
                                  (filter (fun it => jstr_eqb (item_key it) k) items)))) mp.
Proof.
  revert mp; induction items as [|it items IH]; intros mp Hnd; simpl.
  - transitivity (map (fun p : jstr * SessionData => p) mp); [now rewrite map_id|].
    apply map_ext. intros [k s]. now rewrite with_modules_nil.
  - unfold add_item at 2. rewrite get_set_map by exact Hnd.
    rewrite IH by (rewrite map_fst_pairs; exact Hnd).
    rewrite map_map. apply map_ext. intros [k s].
    destruct (jstr_eqb (item_key it) k); simpl; [now rewrite with_modules_cons|reflexivity].
Qed.

Lemma group_eq (fresh : ScheduleItem -> jstr) (sessions : list SessionSlot) (n : Z)
  (items : list ScheduleItem) :
  NoDup (slot_keys sessions n) ->
  groupScheduleBySession fresh sessions n items =
  map (fun '(d, sl) =>
         (session_key d (sstartTime sl),
          with_modules (empty_session d sl)
            (map (to_module fresh)
               (filter (fun it => jstr_eqb (item_key it) (session_key d (sstartTime sl))) items))))
      (slots sessions n).
Proof.
  intro Hnd. unfold groupScheduleBySession.
  rewrite init_sessions_eq, fold_set_fresh.
  - simpl. rewrite fold_add_items.
    + rewrite map_map. apply map_ext. intros [d sl]. reflexivity.
    + rewrite map_map. exact Hnd.
  - exact Hnd.
Qed.

Lemma template_starts_NoDup (v : Q) (u : DurationUnit) :
  NoDup (map sstartTime (fst (getSessionsAndDays v u))).
Proof.
  destruct u; simpl; [| destruct (Qltb 2 v) |];
    vm_compute; repeat constructor; vm_compute; intuition discriminate.
Qed.

Lemma flat_map_ext_in {A B : Type} (f g : A -> list B) (l : list A) :
  (forall x, In x l -> f x = g x) -> flat_map f l = flat_map g l.
Proof.
  induction l as [|x l IH]; intro H; simpl; [reflexivity|].
  rewrite H by (simpl; auto). rewrite IH; [reflexivity|].
  intros; apply H; simpl; auto.
Qed.

(** Bucketing a list by a key that takes its values among distinct keys,
    then concatenating the buckets, permutes the list. *)
Lemma perm_group {A : Type} (kf : A -> jstr) (ks : list jstr) (l : list A) :
  NoDup ks -> (forall x, In x l -> In (kf x) ks) ->
  Permutation (flat_map (fun k => filter (fun x => jstr_eqb (kf x) k) l) ks) l.
Proof.
  intros Hnd; induction l as [|a l IH]; intro Hin.
  - simpl. induction ks; simpl; [constructor|]. apply IHks; [inversion Hnd; auto | intros ? []].
  - assert (Ha : In (kf a) ks) by (apply Hin; simpl; auto).
    destruct (in_split _ _ Ha) as [ks1 [ks2 Hks]].
    pose proof Hnd as Hnd'. rewrite Hks in Hnd'. apply NoDup_remove_2 in Hnd'.
    assert (Hout : forall k, In k (ks1 ++ ks2) ->
              filter (fun x => jstr_eqb (kf x) k) (a :: l) = filter (fun x => jstr_eqb (kf x) k) l).
    { intros k Hk. simpl. rewrite jstr_eqb_neq; [reflexivity|]. intro E. subst k. contradiction. }
    rewrite Hks, flat_map_app. simpl. rewrite jstr_eqb_refl.
    rewrite (flat_map_ext_in _ (fun k => filter (fun x => jstr_eqb (kf x) k) l) ks1)
      by (intros; apply Hout; rewrite in_app_iff; auto).
    rewrite (flat_map_ext_in _ (fun k => filter (fun x => jstr_eqb (kf x) k) l) ks2)
      by (intros; apply Hout; rewrite in_app_iff; auto).
    apply Permutation_sym, Permutation_cons_app, Permutation_sym.
    assert (IH' := IH (fun x H => Hin x (or_intror H))).
    rewrite Hks, flat_map_app in IH'. simpl in IH'. exact IH'.
Qed.

Lemma in_slots (sessions : list SessionSlot) (n d : Z) (sl : SessionSlot) :
  In (d, sl) (slots sessions n) -> In d (day_range n) /\ In sl sessions.
Proof.
  unfold slots; rewrite in_flat_map; intros [d' [Hd Hin]].
  apply in_map_iff in Hin; destruct Hin as [s' [Heq Hs]]; injection Heq as <- <-; auto.
Qed.

(** The grouped view, flattened, is the input up to order, with every
    title that is not a string replaced by the empty string. *)
Lemma flatten_group_perm (fresh : ScheduleItem -> jstr) (sessions : list SessionSlot)
  (n : Z) (items : list ScheduleItem) :
  NoDup (map sstartTime sessions) ->
  (forall it, In it items -> valid_slot sessions n it) ->
  Permutation
    (map entry_tuple (flattenSchedule (groupScheduleBySession fresh sessions n items)))
    (map (fun it => (day_number it, start_time it,
                     Some (Json.JStr (match module_title it with
                                      | Some (Json.JStr s) => s | _ => [] end)),
                     submodules it)) items).
Proof.
  intros Hst Hval.
  pose proof (slot_keys_NoDup sessions n Hst) as Hnd.
  rewrite group_eq by exact Hnd. unfold flattenSchedule.
  rewrite !flat_map_concat_map, map_map, concat_map, map_map.
  set (erase := fun it : ScheduleItem =>
                  (day_number it, start_time it,
                   Some (Json.JStr (match module_title it with
                                    | Some (Json.JStr s) => s | _ => [] end)),
                   submodules it)).
  rewrite (map_ext_in _
             (fun '(d, sl) => map erase
                (filter (fun it => jstr_eqb (item_key it) (session_key d (sstartTime sl))) items))).
  2:{ intros [d sl] Hdsl. simpl. rewrite !map_map. apply map_ext_in.
      intros it Hit. apply filter_In in Hit. destruct Hit as [Hit Hk].
      apply jstr_eqb_spec in Hk.
      destruct (Hval it Hit) as [d' [s' [Hin' [Hday Hstart]]]].
      unfold item_key in Hk. rewrite Hday, Hstart in Hk.
      apply session_key_inj in Hk.
      - destruct Hk as [-> Hst']. unfold erase, entry_tuple; simpl.
        rewrite Hday, Hstart, Hst'. reflexivity.
      - apply in_slots in Hin'. apply (day_range_pos n). tauto.
      - apply in_slots in Hdsl. apply (day_range_pos n). tauto. }
  replace (map (fun '(d, sl) => map erase
                (filter (fun it => jstr_eqb (item_key it) (session_key d (sstartTime sl))) items))
               (slots sessions n))
    with (map (map erase) (map (fun k => filter (fun it => jstr_eqb (item_key it) k) items)
                                (slot_keys sessions n))).
  2:{ unfold slot_keys. rewrite !map_map. apply map_ext. intros [d sl]. reflexivity. }
  rewrite <- concat_map. apply Permutation_map.
  rewrite <- flat_map_concat_map. apply perm_group; [exact Hnd|].
  intros it Hit. destruct (Hval it Hit) as [d [s [Hin [Hday Hstart]]]].
  unfold slot_keys, item_key. rewrite Hday, Hstart.
  apply (in_map (fun '(d0, s0) => session_key d0 (sstartTime s0))) in Hin. exact Hin.
Qed.

Lemma filter_filter_implied {A : Type} (f g : A -> bool) (l : list A) :
  (forall x, In x l -> f x = true -> g x = true) ->
  filter f (filter g l) = filter f l.
Proof.
  induction l as [|x l IH]; intro H; simpl; [reflexivity|].
  destruct (g x) eqn:Eg; simpl.
  - destruct (f x); rewrite IH; auto; intros; apply H; simpl; auto.
  - destruct (f x) eqn:Ef; [rewrite H in Eg; simpl; auto; discriminate|].
    apply IH; intros; apply H; simpl; auto.
Qed.

(** C2: [groupScheduleBySession] returns one session per template key
    [`${day}-${startTime}`], days 1 to [daysCount] crossed with the
    template's start times, in template order, even for an empty input, and
    no other key; each session holds one module per input row carrying its
    key, in input order; rows whose key is no template key contribute
    nothing: the result is the same as for the input without them. *)
Theorem group_session_skeleton (fresh : ScheduleItem -> jstr) (v : Q) (u : DurationUnit)
  (sessions : list SessionSlot) (daysCount : Z) (items : list ScheduleItem) :
  getSessionsAndDays v u = (sessions, daysCount) ->
  map fst (groupScheduleBySession fresh sessions daysCount items) = slot_keys sessions daysCount
  /\ NoDup (slot_keys sessions daysCount)
  /\ (forall k s, In (k, s) (groupScheduleBySession fresh sessions daysCount items) ->
        k = session_key (dayNumber s) (startTime s)
        /\ modules s = map (to_module fresh)
                         (filter (fun it => jstr_eqb (item_key it) k) items))
  /\ groupScheduleBySession fresh sessions daysCount items
     = groupScheduleBySession fresh sessions daysCount
         (filter (fun it => existsb (jstr_eqb (item_key it)) (slot_keys sessions daysCount))
                 items).
Proof.
  intro Htmpl.
  assert (Hst : NoDup (map sstartTime sessions)).
  { pose proof (template_starts_NoDup v u) as H. rewrite Htmpl in H. exact H. }
  pose proof (slot_keys_NoDup sessions daysCount Hst) as Hnd.
  rewrite !group_eq by exact Hnd.
  split; [|split; [exact Hnd|split]].
  - unfold slot_keys. rewrite map_map. apply map_ext. intros [d sl]. reflexivity.
  - intros k s Hin. apply in_map_iff in Hin. destruct Hin as [[d sl] [Heq _]].
    injection Heq as <- <-. simpl. split; reflexivity.
  - apply map_ext_in. intros [d sl] Hdsl. do 3 f_equal.
    symmetry. apply filter_filter_implied.
    intros it _ Hk. apply jstr_eqb_spec in Hk. apply existsb_exists.
    exists (session_key d (sstartTime sl)). split; [|rewrite Hk; apply jstr_eqb_refl].
    unfold slot_keys. apply (in_map (fun '(d0, s0) => session_key d0 (sstartTime s0))) in Hdsl.
    exact Hdsl.
Qed.

Lemma group_session_skeleton_witness :
  getSessionsAndDays 1%Q days = (FULL_DAY_SESSIONS, 1%Z)
  /\ map fst (groupScheduleBySession (fun _ => js "m") FULL_DAY_SESSIONS 1 [stale_row])
     = slot_keys FULL_DAY_SESSIONS 1
  /\ groupScheduleBySession (fun _ => js "m") FULL_DAY_SESSIONS 1 [stale_row]
     = groupScheduleBySession (fun _ => js "m") FULL_DAY_SESSIONS 1 [].
Proof.
  assert (H : getSessionsAndDays 1%Q days = (FULL_DAY_SESSIONS, 1%Z)) by reflexivity.
  destruct (group_session_skeleton (fun _ => js "m") 1%Q days FULL_DAY_SESSIONS 1 [stale_row] H)
    as [H1 [_ [_ H4]]].
  split; [exact H|split; [exact H1|]].
  rewrite H4. reflexivity.
Defined.

(** C1: for rows whose (day, start time) is a slot of the current template
    and whose title is a string, as a ScheduleEntry's is, flattening the
    grouped view gives back the same multiset of (day, start time, title,
    submodules) tuples. *)
Theorem flatten_group_roundtrip (fresh : ScheduleItem -> jstr) (v : Q) (u : DurationUnit)
  (sessions : list SessionSlot) (daysCount : Z) (items : list ScheduleItem) :
  getSessionsAndDays v u = (sessions, daysCount) ->
  (forall it, In it items ->
     valid_slot sessions daysCount it /\ exists t, module_title it = Some (Json.JStr t)) ->
  Permutation
    (map entry_tuple (flattenSchedule (groupScheduleBySession fresh sessions daysCount items)))
    (map entry_tuple items).
Proof.
  intros Htmpl Hok.
  assert (Hst : NoDup (map sstartTime sessions)).
  { pose proof (template_starts_NoDup v u) as H. rewrite Htmpl in H. exact H. }
  eapply Permutation_trans.
  - apply flatten_group_perm; [exact Hst|]. intros it Hit. apply Hok, Hit.
  - apply Permutation_refl'. apply map_ext_in. intros it Hit.
    destruct (Hok it Hit) as [_ [t Ht]]. unfold entry_tuple. rewrite Ht. reflexivity.
Qed.

Lemma flatten_group_roundtrip_witness :
  getSessionsAndDays 1%Q days = (FULL_DAY_SESSIONS, 1%Z)
  /\ Permutation
       (map entry_tuple (flattenSchedule
          (groupScheduleBySession (fun _ => js "m") FULL_DAY_SESSIONS 1 [sample_row; sample_row])))
       (map entry_tuple [sample_row; sample_row]).
Proof.
  assert (H : getSessionsAndDays 1%Q days = (FULL_DAY_SESSIONS, 1%Z)) by reflexivity.
  split; [exact H|].
  apply (flatten_group_roundtrip (fun _ => js "m") 1%Q days FULL_DAY_SESSIONS 1
           [sample_row; sample_row] H).
  intros it Hit. assert (it = sample_row) as -> by (simpl in Hit; intuition congruence).
  split; [|exists (js "Intro"); reflexivity].
  exists 1%Z, (slot "Session 1" "09:00" "11:00"). split; [simpl; auto|split; reflexivity].
Defined.

(** C10: in any list of rows (stale rows included), a row on a template
    slot whose [module_title] is not a string (for instance the JSON array
    written by the array-storing import) becomes a module titled [""], so
    flattening the grouped view emits it with title [""]; no flattened row
    has a non-string title; and when every row is on a template slot, the
    flattened rows are, up to order, the input rows with every non-string
    title replaced by the empty string. *)
Theorem group_erases_nonstring_titles (fresh : ScheduleItem -> jstr) (v : Q) (u : DurationUnit)
  (sessions : list SessionSlot) (daysCount : Z) (items : list ScheduleItem) :
  getSessionsAndDays v u = (sessions, daysCount) ->
  (forall it, In it items -> valid_slot sessions daysCount it ->
     (forall s, module_title it <> Some (Json.JStr s)) ->
     In (day_number it, start_time it, Some (Json.JStr []), submodules it)
        (map entry_tuple (flattenSchedule
           (groupScheduleBySession fresh sessions daysCount items))))
  /\ (forall r, In r (flattenSchedule (groupScheduleBySession fresh sessions daysCount items)) ->
        exists t, module_title r = Some (Json.JStr t))
  /\ ((forall it, In it items -> valid_slot sessions daysCount it) ->
      Permutation
        (map entry_tuple (flattenSchedule (groupScheduleBySession fresh sessions daysCount items)))
        (map (fun it => (day_number it, start_time it,
                         Some (Json.JStr (match module_title it with
                                          | Some (Json.JStr s) => s | _ => [] end)),
                         submodules it)) items)).
Proof.
  intros Htmpl.
  assert (Hst : NoDup (map sstartTime sessions)).
  { pose proof (template_starts_NoDup v u) as H. rewrite Htmpl in H. exact H. }
  pose proof (slot_keys_NoDup sessions daysCount Hst) as Hnd.
  split; [|split].
  - intros it Hit [d [sl [Hin [Hd Hs]]]] Hns.
    rewrite group_eq by exact Hnd.
    apply in_map_iff. eexists; split.
    2:{ apply in_flat_map.
        exists (session_key d (sstartTime sl),
                with_modules (empty_session d sl)
                  (map (to_module fresh)
                     (filter (fun it => jstr_eqb (item_key it) (session_key d (sstartTime sl)))
                             items))).
        split; [apply in_map_iff; exists (d, sl); split; [reflexivity|exact Hin]|].
        apply in_map_iff. exists (to_module fresh it). split; [reflexivity|].
        simpl. apply in_map, filter_In. split; [exact Hit|].
        unfold item_key. rewrite Hd, Hs. apply jstr_eqb_refl. }
    unfold entry_tuple, to_module. simpl. rewrite Hd, Hs.
    destruct (module_title it) as [[]|]; try reflexivity.
    exfalso. eapply Hns; reflexivity.
  - intros r Hr. unfold flattenSchedule in Hr. apply in_flat_map in Hr.
    destruct Hr as [[k s] [_ Hr]]. apply in_map_iff in Hr. destruct Hr as [md [<- _]].
    exists (moduleTitle md). reflexivity.
  - intro Hval. exact (flatten_group_perm fresh sessions daysCount items Hst Hval).
Qed.

Lemma group_erases_nonstring_titles_witness :
  getSessionsAndDays 1%Q days = (FULL_DAY_SESSIONS, 1%Z)
  /\ In (1%Z, js "11:00", Some (Json.JStr []), [])
        (map entry_tuple (flattenSchedule
           (groupScheduleBySession (fun _ => js "m") FULL_DAY_SESSIONS 1
              [stale_row; array_title_row]))).
Proof.
  assert (H : getSessionsAndDays 1%Q days = (FULL_DAY_SESSIONS, 1%Z)) by reflexivity.
  split; [exact H|].
  assert (Hv : valid_slot FULL_DAY_SESSIONS 1 array_title_row).
  { exists 1%Z, (slot "Session 2" "11:00" "14:00"). split; [simpl; auto|split; reflexivity]. }
  destruct (group_erases_nonstring_titles (fun _ => js "m") 1%Q days FULL_DAY_SESSIONS 1
              [stale_row; array_title_row] H) as [H1 _].
  apply (H1 array_title_row); [simpl; auto|exact Hv|intros s Hs; discriminate].
Defined.

End ScheduleTransformFacts.

Module TimeNormalizerFacts.
Import Js JsFacts TimeNormalizer.

(** C3: [normalizeTime] rewrites every dot to a colon before trying the
    meridiem pattern, so the dotted markers "a.m" / "p.m" become "a:m" /
    "p:m", which the pattern [a\.?m\.?|p\.?m\.?] cannot match: "2.00 p.m",
    the example of the function's own doc comment, falls through to the
    plain HH:MM pattern and gives "02:00" instead of "14:00" (the
    undotted "2:00 pm" gives "14:00"); "12.30 a.m" likewise stays
    "12:30".  Hours are not range checked: "99pm" gives "111:00". *)
Theorem normalizeTime_dotted_meridiem :
  normalizeTime (js "2.00 p.m") = js "02:00"
  /\ normalizeTime (js "2:00 pm") = js "14:00"
  /\ normalizeTime (js "12.30 a.m") = js "12:30"
  /\ normalizeTime (js "9:00 a.m") = js "09:00"
  /\ normalizeTime (js "") = js "09:00"
  /\ normalizeTime (js "99pm") = js "111:00".
Proof. vm_compute. repeat split. Qed.

(** C4, counterexample: equal times give the fallback 120, not 0. *)
Lemma calculateDurationMinutes_equal_times :
  calculateDurationMinutes (js "09:00") (js "09:00") = 120%Z
  /\ calculateDurationMinutes (js "09:00") (js "09:00") <> ((9 * 60 + 0) - (9 * 60 + 0))%Z.
Proof. vm_compute. split; [reflexivity|discriminate]. Qed.

Lemma canonical_times_parse (h m : Z) :
  (0 <= h < 24)%Z -> (0 <= m < 60)%Z ->
  normalizeTime (fmt_hhmm (Some h) (z_to_jstr m)) = fmt_hhmm (Some h) (z_to_jstr m)
  /\ map Number_ (split_on 58 (fmt_hhmm (Some h) (z_to_jstr m))) = [Some h; Some m].
Proof.
  intros Hh Hm.
  assert (Hall : forallb (fun h : nat => forallb (fun m : nat =>
             jstr_eqb (normalizeTime (fmt_hhmm (Some (Z.of_nat h)) (z_to_jstr (Z.of_nat m))))
                      (fmt_hhmm (Some (Z.of_nat h)) (z_to_jstr (Z.of_nat m)))
             && match map Number_ (split_on 58 (fmt_hhmm (Some (Z.of_nat h))
                                                        (z_to_jstr (Z.of_nat m)))) with
                | [Some a; Some b] => Z.eqb a (Z.of_nat h) && Z.eqb b (Z.of_nat m)
                | _ => false
                end) (seq 0 60)) (seq 0 24) = true) by (vm_compute; reflexivity).
  rewrite forallb_forall in Hall.
  specialize (Hall (Z.to_nat h) ltac:(apply in_seq; lia)).
  rewrite forallb_forall in Hall.
  specialize (Hall (Z.to_nat m) ltac:(apply in_seq; lia)).
  rewrite !Z2Nat.id in Hall by lia.
  apply andb_prop in Hall as [H1 H2]. apply jstr_eqb_spec in H1.
  split; [exact H1|].
  destruct (map Number_ (split_on 58 (fmt_hhmm (Some h) (z_to_jstr m))))
    as [|[a|] [|[b|] [|]]]; try discriminate.
  apply andb_prop in H2 as [Ha Hb]. apply Z.eqb_eq in Ha, Hb. subst. reflexivity.
Qed.

(** C4, amended: the production [calculateDurationMinutes] normalises both
    arguments first; on canonical HH:MM times it returns end - start,
    adding 1440 when the end is earlier than the start, and the fallback
    120 when the two times are equal.  Text that does not parse (blank,
    or matched by neither pattern) is normalised to 09:00, and an argument,
    start or end, that normalises to 09:00 counts as 09:00. *)
Theorem calculateDurationMinutes_canonical (h1 m1 h2 m2 : Z) :
  (0 <= h1 < 24)%Z -> (0 <= m1 < 60)%Z -> (0 <= h2 < 24)%Z -> (0 <= m2 < 60)%Z ->
  calculateDurationMinutes (fmt_hhmm (Some h1) (z_to_jstr m1)) (fmt_hhmm (Some h2) (z_to_jstr m2))
  = (let t1 := (h1 * 60 + m1)%Z in let t2 := (h2 * 60 + m2)%Z in
     if (t2 <? t1)%Z then (t2 - t1 + 1440)%Z
     else if (t2 =? t1)%Z then 120%Z
     else (t2 - t1)%Z)
  /\ (forall t e, normalizeTime t = js "09:00" ->
        calculateDurationMinutes t e = calculateDurationMinutes (js "09:00") e
        /\ calculateDurationMinutes e t = calculateDurationMinutes e (js "09:00"))
  /\ (forall t,
        (jstr_eqb t [] || jstr_eqb (trim t) [] || jstr_eqb (toUpperCase (trim t)) (js "NULL")) = true
        \/ (Regex.exec meridiem_re (replace_char 46 58 (trim t)) = None
            /\ Regex.exec simple_re (replace_char 46 58 (trim t)) = None) ->
        normalizeTime t = js "09:00").
Proof.
  intros H1 H2 H3 H4. split; [|split].
  - destruct (canonical_times_parse h1 m1 H1 H2) as [N1 P1].
    destruct (canonical_times_parse h2 m2 H3 H4) as [N2 P2].
    unfold calculateDurationMinutes. rewrite N1, N2, P1, P2.
    cbn [num_at olift2 option_map nth_error].
    repeat match goal with
           | |- context [Z.ltb ?a ?b] =>
               lazymatch a with context [if _ then _ else _] => fail | _ =>
               lazymatch b with context [if _ then _ else _] => fail | _ =>
                 destruct (Z.ltb_spec a b) end end
           | |- context [Z.eqb ?a ?b] => destruct (Z.eqb_spec a b)
           end; lia.
  - intros t e Ht.
    assert (N9 : normalizeTime (js "09:00") = js "09:00") by (vm_compute; reflexivity).
    unfold calculateDurationMinutes. rewrite Ht, N9. split; reflexivity.
  - intros t Ht. unfold normalizeTime.
    destruct (jstr_eqb t [] || jstr_eqb (trim t) [] || jstr_eqb (toUpperCase (trim t)) (js "NULL"));
      [reflexivity|].
    destruct Ht as [Ht|[Hm Hs]]; [discriminate|].
    cbv zeta. rewrite Hm, Hs. reflexivity.
Qed.

Lemma calculateDurationMinutes_canonical_witness :
  calculateDurationMinutes (fmt_hhmm (Some 23%Z) (z_to_jstr 0)) (fmt_hhmm (Some 1%Z) (z_to_jstr 0))
  = 120%Z
  /\ calculateDurationMinutes (js "11:00") (js "noon") = calculateDurationMinutes (js "11:00") (js "09:00").
Proof.
  destruct (calculateDurationMinutes_canonical 23 0 1 0 ltac:(lia) ltac:(lia) ltac:(lia) ltac:(lia))
    as [H [H9 Hp]].
  split; [rewrite H; reflexivity|].
  apply (H9 (js "noon") (js "11:00")). apply Hp. right. split; vm_compute; reflexivity.
Defined.

End TimeNormalizerFacts.

Module ListFieldFacts.
Import Js JsFacts Regex ListFieldNormalizer ArrayLiteralImport.

Lemma drop_ws_split (l : jstr) :
  exists w, l = w ++ drop_ws l /\ starts_non_ws (drop_ws l).
Proof.
  induction l as [|c l IH]; simpl.
  - exists []; split; [reflexivity|exact I].
  - destruct (is_ws c) eqn:E.
    + destruct IH as [w [Hw Hs]]. exists (c :: w). split; [simpl; congruence|exact Hs].
    + exists []. split; [reflexivity|exact E].
Qed.

Lemma drop_ws_id (l : jstr) : starts_non_ws l -> drop_ws l = l.
Proof. destruct l as [|c l]; simpl; [reflexivity|]. intro H; rewrite H; reflexivity. Qed.

Lemma trim_idem (x : jstr) : trim (trim x) = trim x.
Proof.
  unfold trim.
  destruct (drop_ws_split x) as [w1 [H1 S1]].
  set (y := drop_ws x) in *.
  destruct (drop_ws_split (rev y)) as [w2 [H2 S2]].
  set (z := drop_ws (rev y)) in *.
  assert (Hy : y = rev z ++ rev w2) by (rewrite <- rev_app_distr, <- H2, rev_involutive; reflexivity).
  rewrite (drop_ws_id (rev z)).
  - rewrite rev_involutive, (drop_ws_id z S2). reflexivity.
  - destruct (rev z) as [|c t] eqn:E; [exact I|].
    rewrite Hy in S1. exact S1.
Qed.

Lemma filter_nonempty_trimmed (f : jstr -> jstr) (l : list jstr) :
  Forall (fun x => trim x = x /\ x <> []) (filter nonempty (map (fun m => trim (f m)) l)).
Proof.
  induction l as [|a l IH]; simpl; [constructor|].
  destruct (trim (f a)) eqn:E; simpl; [exact IH|].
  constructor; [|exact IH]. split; [rewrite <- E; apply trim_idem|discriminate].
Qed.

Lemma flat_map_keep_nonblank (l : list Json.json) :
  Forall (fun x => trim x <> [])
    (flat_map (fun it => match keep_item it with Some x => [x] | None => [] end) l).
Proof.
  induction l as [|it l IH]; simpl; [constructor|].
  destruct (keep_item it) eqn:E; simpl; [|exact IH].
  constructor; [|exact IH].
  destruct it as [| | | [|c x] | |]; simpl in E; try discriminate.
  destruct (jstr_eqb (trim (c :: x)) []) eqn:E2; [discriminate|].
  injection E as <-. intro H. rewrite H in E2. discriminate.
Qed.

(** C5, counterexample: the module-title parser has no array-literal
    recognizer; the literal is one '|' segment. *)
Lemma parseModuleTitle_array_literal :
  parseModuleTitle (js "['X', 'Y']") = [js "['X', 'Y']"]
  /\ parseModuleTitle (js "[]") = [js "[]"].
Proof. vm_compute. split; reflexivity. Qed.

(** C5, amended: the single-quoted array literal is recognised only by the
    submodule parser of the array-literal import, which rewrites single
    quotes to double quotes and parses JSON: "['X', 'Y']" gives ["X", "Y"];
    "[]" and every input whose rewritten text is valid JSON but not an
    array give undefined ([None]), not a list; [parseModuleTitle] returns
    the literal itself as its single segment. *)
Theorem array_literal_recognizer (s : jstr) (j : Json.json) :
  Json.parse (replace_char 39 34 (trim s)) = Some j ->
  (forall l, j <> Json.JArr l) ->
  ArrayLiteralImport.parseSubmoduleTitle s = None
  /\ ArrayLiteralImport.parseSubmoduleTitle (js "['X', 'Y']") = Some [js "X"; js "Y"]
  /\ ArrayLiteralImport.parseSubmoduleTitle (js "[]") = None
  /\ parseModuleTitle (js "['X', 'Y']") = [js "['X', 'Y']"]
  /\ parseModuleTitle (js "[]") = [js "[]"].
Proof.
  intros Hp Hna. split; [|vm_compute; repeat split].
  unfold ArrayLiteralImport.parseSubmoduleTitle.
  destruct (_ || _ || _ || _); [reflexivity|].
  destruct (_ || _); [reflexivity|].
  rewrite Hp. destruct j; try reflexivity. exfalso. eapply Hna; reflexivity.
Qed.

Lemma array_literal_recognizer_witness :
  Json.parse (replace_char 39 34 (trim (js "{'a': 1}"))) = Some (Json.JObj [(js "a", Json.JNum (js "1"))])
  /\ ArrayLiteralImport.parseSubmoduleTitle (js "{'a': 1}") = None.
Proof.
  assert (H : Json.parse (replace_char 39 34 (trim (js "{'a': 1}")))
              = Some (Json.JObj [(js "a", Json.JNum (js "1"))])) by (vm_compute; reflexivity).
  split; [exact H|].
  apply (array_literal_recognizer (js "{'a': 1}") _ H). intros l; discriminate.
Defined.

(** C6, counterexample: the array-literal parser answers undefined
    ([None]), not an empty list, for "[]", and keeps a JSON item
    untrimmed. *)
Lemma parseSubmoduleTitle_not_a_trimmed_sequence :
  ArrayLiteralImport.parseSubmoduleTitle (js "[]") = None
  /\ ArrayLiteralImport.parseSubmoduleTitle (js "[' A ']") = Some [js " A "].
Proof. vm_compute. split; reflexivity. Qed.

(** C6, amended: both parsers are total functions.  [parseModuleTitle]
    returns trimmed non-empty segments.  The array-literal
    [parseSubmoduleTitle] returns either undefined or a non-empty list of
    non-blank strings; when JSON parsing fails the list is made of the
    trimmed, quote-free contents of the successive [/'([^']+)'/g] matches,
    blank ones dropped. *)
Theorem list_parsers_total (s : jstr) :
  Forall (fun x => trim x = x /\ x <> []) (parseModuleTitle s)
  /\ (ArrayLiteralImport.parseSubmoduleTitle s = None
      \/ exists l, ArrayLiteralImport.parseSubmoduleTitle s = Some l
                   /\ l <> [] /\ Forall (fun x => trim x <> []) l)
  /\ (Json.parse (replace_char 39 34 (trim s)) = None ->
      forall l, ArrayLiteralImport.parseSubmoduleTitle s = Some l ->
      l = filter nonempty (map (fun m => trim (filter (fun c => negb (c =? 39)%N) m))
                               (match_all quoted_re (trim s)))
      /\ Forall (fun x => trim x = x /\ x <> []) l).
Proof.
  split; [|split].
  - unfold parseModuleTitle. destruct (is_sentinel s); [constructor|].
    apply (filter_nonempty_trimmed (fun m => m)).
  - unfold ArrayLiteralImport.parseSubmoduleTitle.
    destruct (_ || _ || _ || _); [left; reflexivity|].
    destruct (_ || _); [left; reflexivity|].
    destruct (Json.parse _) as [j|].
    + destruct j; try (left; reflexivity).
      destruct (flat_map _ l) as [|x r] eqn:E; [left; reflexivity|].
      right. exists (x :: r). split; [reflexivity|split; [discriminate|]].
      rewrite <- E. apply flat_map_keep_nonblank.
    + destruct (match_all quoted_re _); [left; reflexivity|].
      destruct (filter nonempty _) as [|x r] eqn:E; [left; reflexivity|].
      right. exists (x :: r). split; [reflexivity|split; [discriminate|]].
      rewrite <- E. eapply Forall_impl; [|apply filter_nonempty_trimmed].
      intros y [Hy Hn]. rewrite Hy. exact Hn.
  - intros Hp l Hl. unfold ArrayLiteralImport.parseSubmoduleTitle in Hl.
    destruct (_ || _ || _ || _); [discriminate|].
    destruct (_ || _); [discriminate|].
    rewrite Hp in Hl.
    destruct (match_all quoted_re (trim s)) as [|m0 ms]; [discriminate|].
    destruct (filter nonempty _) as [|x r] eqn:E; [discriminate|].
    injection Hl as <-. split; [reflexivity|].
    rewrite <- E. apply filter_nonempty_trimmed.
Qed.

Lemma list_parsers_total_witness :
  Json.parse (replace_char 39 34 (trim (js "['it's', 'b'"))) = None
  /\ ArrayLiteralImport.parseSubmoduleTitle (js "['it's', 'b'") = Some [js "it"; js ","]
  /\ Forall (fun x => trim x = x /\ x <> []) [js "it"; js ","].
Proof.
  assert (H : Json.parse (replace_char 39 34 (trim (js "['it's', 'b'"))) = None)
    by (vm_compute; reflexivity).
  assert (H2 : ArrayLiteralImport.parseSubmoduleTitle (js "['it's', 'b'") = Some [js "it"; js ","])
    by (vm_compute; reflexivity).
  split; [exact H|split; [exact H2|]].
  destruct (list_parsers_total (js "['it's', 'b'")) as [_ [_ H3]].
  exact (proj2 (H3 H _ H2)).
Defined.

End ListFieldFacts.

Module TemplateFacts.
Import ScheduleTransform.

(** C7: for the unit [days] the builder rounds a positive duration without
    a lower bound: 0.3 days gives [daysCount = 0] (the fallback 1 applies
    only to durations that are not positive), so the template has no day
    at all. *)
Theorem getSessionsAndDays_small_days :
  getSessionsAndDays (3 # 10) days = (FULL_DAY_SESSIONS, 0%Z)
  /\ slots FULL_DAY_SESSIONS 0 = []
  /\ getSessionsAndDays 3%Q days = (FULL_DAY_SESSIONS, 3%Z)
  /\ getSessionsAndDays 0%Q days = (FULL_DAY_SESSIONS, 1%Z)
  /\ getSessionsAndDays (3 # 2) hours = (firstn 1 HOUR_SESSIONS, 1%Z)
  /\ getSessionsAndDays (7 # 2) half_day = (HALF_DAY_SESSIONS, 1%Z).
Proof. repeat split; reflexivity. Qed.

End TemplateFacts.

Module ScheduleImportFacts.
Import Js JsFacts ScheduleImport.

Lemma find_app_none (s t : list CourseSchedule) (id : jstr) :
  findUnique (s ++ t) id = None -> findUnique s id = None.
Proof.
  unfold findUnique. induction s as [|a s IH]; simpl; [reflexivity|].
  destruct (jstr_eqb (cs_id a) id); [discriminate|exact IH].
Qed.

Lemma find_mid (s t : list CourseSchedule) (d : CourseSchedule) :
  findUnique (s ++ d :: t) (cs_id d) <> None.
Proof.
  unfold findUnique. induction s as [|a s IH]; simpl.
  - rewrite jstr_eqb_refl. discriminate.
  - destruct (jstr_eqb (cs_id a) (cs_id d)); [discriminate|exact IH].
Qed.

Section Run.
Variable course_exists : jstr -> bool.
Variable parseDate : jstr -> Z.

Local Abbreviation step := (importRow course_exists parseDate).
Local Abbreviation run := (importRows course_exists parseDate).

Lemma importRow_cases (s : list CourseSchedule) (r : CourseScheduleRow) :
  (snd (step s r) <> Imported /\ fst (step s r) = s)
  \/ (snd (step s r) = Imported
      /\ exists d, fst (step s r) = s ++ [d] /\ findUnique s (cs_id d) = None).
Proof.
  unfold importRow.
  repeat match goal with
         | |- context [if ?c then _ else _] => destruct c eqn:?
         | |- context [match ?x with _ => _ end] =>
             lazymatch x with
             | context [match _ with _ => _ end] => fail
             | _ => destruct x eqn:?
             end
         end; simpl;
  try (left; split; [discriminate|reflexivity]).
  all: unfold create in *;
       match goal with H : match ?x with _ => _ end = _ |- _ => destruct x eqn:F end;
       try discriminate;
       match goal with H : Some _ = Some _ |- _ => injection H as <- end;
       right; split; [reflexivity|eexists; split; [reflexivity|exact F]].
Qed.

Lemma importRow_prefix (s t : list CourseSchedule) (r : CourseScheduleRow) :
  snd (step (s ++ t) r) = Imported ->
  exists d, step s r = (s ++ [d], Imported) /\ findUnique (s ++ t) (cs_id d) = None.
Proof.
  intro H. unfold importRow in *.
  destruct (_ || _); [discriminate|].
  destruct (negb _); [discriminate|].
  destruct (r_id r) as [rid|]; [|discriminate].
  destruct (findUnique (s ++ t) (trim rid)) eqn:F; [discriminate|].
  rewrite (find_app_none _ _ _ F).
  destruct (parseInt (r_day_number r)); [|discriminate].
  destruct (_ <? 1)%Z; [discriminate|].
  destruct (ListFieldNormalizer.parseModuleTitle _); [discriminate|].
  unfold create in *. cbn [cs_id] in *.
  rewrite F in H. rewrite (find_app_none _ _ _ F).
  eexists; split; [reflexivity|exact F].
Qed.

Lemma run_prefix (s : list CourseSchedule) (c : Counters) (rows : list CourseScheduleRow) :
  exists t, fst (run s c rows) = s ++ t.
Proof.
  revert s c. induction rows as [|r rows IH]; intros s c; simpl.
  - exists []. rewrite app_nil_r. reflexivity.
  - destruct (step s r) as [s' o] eqn:St.
    destruct (IH s' (bump c o)) as [t Ht]. rewrite Ht.
    destruct (importRow_cases s r) as [[_ E]|[_ [d [E _]]]]; rewrite St in E; simpl in E; subst s'.
    + exists t. reflexivity.
    + exists (d :: t). rewrite <- app_assoc. reflexivity.
Qed.

Lemma run_positions (s : list CourseSchedule) (c : Counters) (rows : list CourseScheduleRow) :
  forall r, In r rows ->
  exists si t1 t2, fst (run s c rows) = si ++ t1 /\ fst (run s c rows) = fst (step si r) ++ t2.
Proof.
  revert s c. induction rows as [|r0 rows IH]; intros s c r Hin; [destruct Hin|].
  simpl. destruct (step s r0) as [s' o] eqn:E.
  destruct Hin as [<-|Hin]; [|exact (IH s' (bump c o) r Hin)].
  destruct (run_prefix s' (bump c o) rows) as [t Ht].
  destruct (importRow_cases s r0) as [[_ E']|[_ [d [E' _]]]]; rewrite E in E'; simpl in E'; subst s'.
  - exists s, t, t. rewrite E. split; exact Ht.
  - exists s, (d :: t), t. rewrite E. split; [rewrite Ht, <- app_assoc; reflexivity|exact Ht].
Qed.

Lemma rerun_not_imported (s : list CourseSchedule) (c : Counters) (rows : list CourseScheduleRow) :
  forall r, In r rows -> snd (step (fst (run s c rows)) r) <> Imported.
Proof.
  intros r Hin Himp.
  destruct (run_positions s c rows r Hin) as [si [t1 [t2 [H1 H2]]]].
  rewrite H1 in Himp.
  destruct (importRow_prefix si t1 r Himp) as [d [Hd Hnone]].
  rewrite <- H1, H2, Hd in Hnone. simpl in Hnone.
  rewrite <- app_assoc in Hnone. exact (find_mid si t2 d Hnone).
Qed.

Lemma run_without_imports (s : list CourseSchedule) (c : Counters) (rows : list CourseScheduleRow) :
  (forall r, In r rows -> snd (step s r) <> Imported) ->
  fst (run s c rows) = s /\ successCount (snd (run s c rows)) = successCount c.
Proof.
  revert c. induction rows as [|r rows IH]; intros c Hno; simpl; [split; reflexivity|].
  destruct (importRow_cases s r) as [[Ho E]|[Ho _]];
    [|exfalso; exact (Hno r (or_introl eq_refl) Ho)].
  destruct (step s r) as [s' o]; simpl in Ho, E; subst s'.
  destruct (IH (bump c o) (fun r' H => Hno r' (or_intror H))) as [H1 H2].
  split; [exact H1|]. rewrite H2. destruct o; [contradiction|reflexivity|reflexivity].
Qed.

End Run.

(** C8: in the skip-if-exists import, a row whose trimmed identifier is
    already stored is skipped, counted as skipped, and the store is left
    as it was; and, over any store (the empty one of a first import
    included), importing the same rows a second time over the resulting
    store imports nothing and leaves every stored row unchanged. *)
Theorem import_skip_existing_idempotent
  (course_exists : jstr -> bool) (parseDate : jstr -> Z) :
  (forall (store : list CourseSchedule) (record : CourseScheduleRow) (rid : jstr)
          (existing : CourseSchedule),
     r_id record = Some rid -> findUnique store (trim rid) = Some existing ->
     importRow course_exists parseDate store record = (store, Skipped)
     /\ (forall c, snd (importRows course_exists parseDate store c [record]) = bump c Skipped))
  /\ (forall store rows c,
        let s1 := fst (importRows course_exists parseDate store c rows) in
        fst (importRows course_exists parseDate s1 zero_counters rows) = s1
        /\ successCount (snd (importRows course_exists parseDate s1 zero_counters rows)) = 0).
Proof.
  split.
  - intros store record rid existing Hid Hex.
    assert (Hstep : importRow course_exists parseDate store record = (store, Skipped)).
    { unfold importRow. rewrite Hid, Hex.
      destruct (_ || _); [reflexivity|]. destruct (negb _); reflexivity. }
    split; [exact Hstep|].
    intro c. simpl. rewrite Hstep. reflexivity.
  - intros store rows c s1.
    apply run_without_imports. apply rerun_not_imported.
Qed.

Lemma import_skip_existing_idempotent_witness :
  r_id (csv_row "s1" "c1" "1" "Intro") = Some (js "s1")
  /\ findUnique [stored_row] (trim (js "s1")) = Some stored_row
  /\ importRow (fun _ => true) (fun _ => 0%Z) [stored_row] (csv_row "s1" "c1" "1" "Intro")
     = ([stored_row], Skipped)
  /\ fst (importRows (fun _ => true) (fun _ => 0%Z)
           (fst (importRows (fun _ => true) (fun _ => 0%Z) [] zero_counters
                   [csv_row "s1" "c1" "1" "Intro"; csv_row "s2" "c1" "2" "A | B"]))
           zero_counters [csv_row "s1" "c1" "1" "Intro"; csv_row "s2" "c1" "2" "A | B"])
     = fst (importRows (fun _ => true) (fun _ => 0%Z) [] zero_counters
              [csv_row "s1" "c1" "1" "Intro"; csv_row "s2" "c1" "2" "A | B"]).
Proof.
  assert (H1 : r_id (csv_row "s1" "c1" "1" "Intro") = Some (js "s1")) by reflexivity.
  assert (H2 : findUnique [stored_row] (trim (js "s1")) = Some stored_row) by (vm_compute; reflexivity).
  destruct (import_skip_existing_idempotent (fun _ => true) (fun _ => 0%Z)) as [HA HB].
  split; [exact H1|split; [exact H2|split]].
  - exact (proj1 (HA [stored_row] _ _ _ H1 H2)).
  - exact (proj1 (HB [] [csv_row "s1" "c1" "1" "Intro"; csv_row "s2" "c1" "2" "A | B"]
                     zero_counters)).
Defined.

(** C9, counterexample: once [deleteMany({})] has succeeded, the prior
    rows are gone; with the CSV file missing the run ends in a fatal error
    with no schedule row left, the prior one included. *)
Lemma cleanAndImport_missing_file_empties :
  cleanAndImportCourseSchedule (Entry := CourseScheduleRow * Z) pair
    (fun s e => Some (s ++ [e])) true true [(csv_row "s0" sample_uuid "1" "Old", 1%Z)] None
  = ([], None).
Proof. reflexivity. Qed.

Lemma cleanRows_counts {Entry : Type} (build : CourseScheduleRow -> Z -> Entry)
  (createEntry : list Entry -> Entry -> option (list Entry)) (s : list Entry) (c : Counters) rows :
  let c' := snd (cleanRows build createEntry s c rows) in
  (successCount c' + skippedCount c' + errorCount c'
   = successCount c + skippedCount c + errorCount c + List.length rows)%nat.
Proof.
  revert s c. induction rows as [|r rows IH]; intros s c; simpl; [lia|].
  destruct (cleanRow build createEntry s r) as [s' o].
  rewrite (IH s' (bump c o)). destruct o; simpl; lia.
Qed.

(** C9, amended: the delete-all import is not all-or-nothing.  When
    [$connect()] or [deleteMany({})] fails, nothing is deleted and the run
    is a fatal error.  Once the delete has succeeded, outside any
    transaction, the prior rows (of every course) are gone and play no
    further part: a missing CSV file leaves the table empty and is a fatal
    error; otherwise every row is imported, skipped (a course id that is
    not a UUID, a blank module title, a day number not at least 1) or
    counted as an error when its [create] throws, on its own, so a failing
    [create] leaves a partial set behind, reported in the counters rather
    than as one failed save. *)
Theorem cleanAndImport_not_atomic :
  (forall (Entry : Type) (build : CourseScheduleRow -> Z -> Entry)
          (createEntry : list Entry -> Entry -> option (list Entry))
          (store : list Entry) (csv : option (list CourseScheduleRow)) (disconnect_ok : bool),
      cleanAndImportCourseSchedule build createEntry false disconnect_ok store csv = (store, None)
      /\ cleanAndImportCourseSchedule build createEntry true disconnect_ok store None = ([], None)
      /\ (forall store',
            cleanAndImportCourseSchedule build createEntry true disconnect_ok store' csv
            = cleanAndImportCourseSchedule build createEntry true disconnect_ok store csv)
      /\ (forall r, uuid_test (r_course_id r) = false ->
            cleanRow build createEntry store r = (store, Skipped))
      /\ (forall rows,
            match snd (cleanAndImportCourseSchedule build createEntry true true store (Some rows)) with
            | Some c => (successCount c + skippedCount c + errorCount c = List.length rows)%nat
            | None => False
            end))
  /\ cleanAndImportCourseSchedule (Entry := CourseScheduleRow * Z) pair
       (fun s e => if Nat.ltb (List.length s) 1 then Some (s ++ [e]) else None) true true
       [(csv_row "s0" sample_uuid "1" "Old", 1%Z)]
       (Some [csv_row "a" sample_uuid "1" "Intro"; csv_row "b" sample_uuid "2" "Next";
              csv_row "c" "c1" "1" "Intro"])
     = ([(csv_row "a" sample_uuid "1" "Intro", 1%Z)],
        Some {| successCount := 1; skippedCount := 1; errorCount := 1 |}).
Proof.
  split; [|vm_compute; reflexivity].
  intros Entry build createEntry store csv dis.
  split; [reflexivity|split; [reflexivity|split; [reflexivity|split]]].
  - intros r Hr. unfold cleanRow, prepareRow. rewrite Hr, orb_true_r. reflexivity.
  - intro rows. unfold cleanAndImportCourseSchedule.
    pose proof (cleanRows_counts build createEntry [] zero_counters rows) as H.
    destruct (cleanRows _ _ _ _ _) as [s c]. simpl in *. lia.
Qed.

End ScheduleImportFacts.

Module ScheduleEditFacts.
Import Js JsFacts ScheduleTransform ScheduleTransformFacts ScheduleEdit.

Lemma flatten_cons (k : jstr) (s : SessionData) (mp : SessionMap) :
  flattenSchedule ((k, s) :: mp) = map (row_of s) (modules s) ++ flattenSchedule mp.
Proof. reflexivity. Qed.

Lemma flatten_app (a b : SessionMap) :
  flattenSchedule (a ++ b) = flattenSchedule a ++ flattenSchedule b.
Proof. unfold flattenSchedule. apply flat_map_app. Qed.

Lemma flatten_set_modules (k : jstr) (s : SessionData) (ms : list ModuleData) :
  flattenSchedule [(k, set_modules s ms)] = map (row_of s) ms.
Proof. simpl. rewrite app_nil_r. reflexivity. Qed.

Lemma in_flatten (mp : SessionMap) (r : ScheduleItem) :
  In r (flattenSchedule mp) ->
  exists k s m, In (k, s) mp /\ In m (modules s) /\ r = row_of s m.
Proof.
  induction mp as [|[k s] mp IH]; simpl; [tauto|].
  rewrite in_app_iff, in_map_iff. intros [[m [<- Hm]]|H].
  - exists k, s, m. auto.
  - destruct (IH H) as [k' [s' [m [H1 [H2 H3]]]]]. exists k', s', m. auto.
Qed.

Lemma flatten_keys (mp : SessionMap) (r : ScheduleItem) :
  wf mp -> In r (flattenSchedule mp) -> In (item_key r) (map fst mp).
Proof.
  intros [_ Hk] Hr. destruct (in_flatten mp r Hr) as [k [s [m [Hin [_ ->]]]]].
  unfold item_key. simpl. rewrite (Hk k s Hin).
  apply (in_map fst) in Hin. exact Hin.
Qed.

Lemma map_get_none (k : jstr) (mp : SessionMap) :
  map_get k mp = None -> ~ In k (map fst mp).
Proof.
  induction mp as [|[k' v] mp IH]; simpl; [tauto|].
  destruct (jstr_eqb k k') eqn:E; [discriminate|].
  intros H [->|Hin]; [rewrite jstr_eqb_refl in E; discriminate|exact (IH H Hin)].
Qed.

Lemma get_split (k : jstr) (mp : SessionMap) (s : SessionData) :
  map_get k mp = Some s ->
  exists m1 m2, mp = m1 ++ (k, s) :: m2 /\ ~ In k (map fst m1)
                /\ forall v, map_set k v mp = m1 ++ (k, v) :: m2.
Proof.
  induction mp as [|[k' v'] mp IH]; simpl; [discriminate|].
  destruct (jstr_eqb k k') eqn:E.
  - apply jstr_eqb_spec in E. subst k'. intros [= <-].
    exists [], mp. simpl. auto.
  - intro H. destruct (IH H) as [m1 [m2 [H1 [H2 H3]]]].
    exists ((k', v') :: m1), m2. split; [simpl; rewrite H1; reflexivity|]. split.
    + simpl. intros [->|Hin]; [rewrite jstr_eqb_refl in E; discriminate|exact (H2 Hin)].
    + intro v. simpl. rewrite H3. reflexivity.
Qed.

(** Around the session of [k], the rows of a well-formed map have other
    keys. *)
Lemma split_other_keys (k : jstr) (s : SessionData) (m1 m2 : SessionMap) :
  wf (m1 ++ (k, s) :: m2) -> ~ In k (map fst m1) ->
  (forall r, In r (flattenSchedule m1) -> item_key r <> k)
  /\ (forall r, In r (flattenSchedule m2) -> item_key r <> k)
  /\ (forall m, item_key (row_of s m) = k).
Proof.
  intros [Hnd Hk] Hn1. rewrite map_app in Hnd. simpl in Hnd.
  apply NoDup_remove_2 in Hnd.
  assert (Hw : forall mp, (forall k' s', In (k', s') mp -> In (k', s') (m1 ++ (k, s) :: m2)) ->
               ~ In k (map fst mp) -> forall r, In r (flattenSchedule mp) -> item_key r <> k).
  { intros mp Hsub Hnk r Hr E. destruct (in_flatten mp r Hr) as [k' [s' [m [Hin [_ ->]]]]].
    unfold item_key in E. simpl in E. rewrite (Hk k' s' (Hsub _ _ Hin)) in E. subst k'.
    apply (in_map fst) in Hin. exact (Hnk Hin). }
  split; [|split].
  - apply Hw; [intros; apply in_or_app; auto|exact Hn1].
  - apply Hw; [intros; apply in_or_app; simpl; auto|].
    intro H. apply Hnd, in_or_app. auto.
  - intro m. unfold item_key. simpl. apply Hk, in_or_app. simpl. auto.
Qed.

Lemma group_wf (fresh : ScheduleItem -> jstr) (sessions : list SessionSlot) (n : Z)
  (items : list ScheduleItem) :
  NoDup (map sstartTime sessions) -> wf (groupScheduleBySession fresh sessions n items).
Proof.
  intro Hs. pose proof (slot_keys_NoDup sessions n Hs) as Hnd.
  rewrite group_eq by exact Hnd. split.
  - rewrite map_map. unfold slot_keys in Hnd.
    replace (map (fun x => fst (let '(d, sl) := x in _)) (slots sessions n))
      with (map (fun '(d, s) => session_key d (sstartTime s)) (slots sessions n)); [exact Hnd|].
    apply map_ext. intros [d sl]. reflexivity.
  - intros k s Hin. apply in_map_iff in Hin. destruct Hin as [[d sl] [E _]].
    injection E as <- <-. reflexivity.
Qed.

Lemma group_keys (fresh : ScheduleItem -> jstr) (sessions : list SessionSlot) (n : Z)
  (items : list ScheduleItem) :
  NoDup (map sstartTime sessions) ->
  map fst (groupScheduleBySession fresh sessions n items) = slot_keys sessions n.
Proof.
  intro Hs. pose proof (slot_keys_NoDup sessions n Hs) as Hnd.
  rewrite group_eq by exact Hnd. rewrite map_map. unfold slot_keys.
  apply map_ext. intros [d sl]. reflexivity.
Qed.

Lemma map_get_some_in (k : jstr) (mp : SessionMap) :
  In k (map fst mp) -> exists s, map_get k mp = Some s.
Proof.
  induction mp as [|[k' v] mp IH]; simpl; [tauto|].
  destruct (jstr_eqb k k') eqn:E; [eauto|].
  intros [->|Hin]; [rewrite jstr_eqb_refl in E; discriminate|exact (IH Hin)].
Qed.

Lemma filter_map_comm {A B : Type} (p : B -> bool) (q : A -> bool) (g : A -> B) (l : list A) :
  (forall x, p (g x) = q x) -> filter p (map g l) = map g (filter q l).
Proof.
  intro H. induction l as [|x l IH]; simpl; [reflexivity|].
  rewrite H. destruct (q x); simpl; rewrite IH; reflexivity.
Qed.

Lemma filter_all {A : Type} (p : A -> bool) (l : list A) :
  (forall x, In x l -> p x = true) -> filter p l = l.
Proof.
  induction l as [|x l IH]; simpl; intro H; [reflexivity|].
  rewrite H by auto. rewrite IH; auto.
Qed.

Lemma filter_none {A : Type} (p : A -> bool) (l : list A) :
  (forall x, In x l -> p x = false) -> filter p l = [].
Proof.
  induction l as [|x l IH]; simpl; intro H; [reflexivity|].
  rewrite H by auto. apply IH; auto.
Qed.

Lemma update_first_skip {A : Type} (p : A -> bool) (f : A -> A) (a b : list A) :
  (forall x, In x a -> p x = false) -> update_first p f (a ++ b) = a ++ update_first p f b.
Proof.
  induction a as [|x a IH]; simpl; intro H; [reflexivity|].
  rewrite H by auto. rewrite IH; auto.
Qed.

Lemma update_first_hit {A : Type} (p : A -> bool) (f : A -> A) (a b : list A) :
  existsb p a = true -> update_first p f (a ++ b) = update_first p f a ++ b.
Proof.
  induction a as [|x a IH]; simpl; [discriminate|].
  destruct (p x); simpl; [reflexivity|]. intro H. rewrite IH; auto.
Qed.

Lemma update_first_map {A B : Type} (q : A -> bool) (f : A -> A) (p : B -> bool) (F : B -> B)
  (g : A -> B) (l : list A) :
  (forall x, p (g x) = q x) -> (forall x, g (f x) = F (g x)) ->
  map g (update_first q f l) = update_first p F (map g l).
Proof.
  intros Hp Hf. induction l as [|x l IH]; simpl; [reflexivity|].
  rewrite Hp. destruct (q x); simpl; [rewrite Hf; reflexivity|rewrite IH; reflexivity].
Qed.

Lemma existsb_map_find {A B : Type} (q : A -> bool) (p : B -> bool) (g : A -> B) (l : list A) :
  (forall x, p (g x) = q x) ->
  existsb p (map g l) = match find q l with Some _ => true | None => false end.
Proof.
  intro H. induction l as [|x l IH]; simpl; [reflexivity|].
  rewrite H. destruct (q x); [reflexivity|exact IH].
Qed.

Lemma existsb_false {A : Type} (p : A -> bool) (l : list A) :
  (forall x, In x l -> p x = false) -> existsb p l = false.
Proof.
  induction l as [|x l IH]; simpl; intro H; [reflexivity|].
  rewrite H by auto. apply IH; auto.
Qed.

Lemma row_is_other (k moduleId : jstr) (r : ScheduleItem) :
  item_key r <> k -> row_is k moduleId r = false.
Proof. intro H. unfold row_is. rewrite jstr_eqb_neq by exact H. reflexivity. Qed.

(** The common shape of the [find]-and-mutate handlers, on any
    well-formed map. *)
Lemma update_module_rows (fresh : ScheduleItem -> jstr) (sessions : list SessionSlot) (n : Z)
  (items : list ScheduleItem) (day : Z) (st moduleId : jstr)
  (f : ModuleData -> ModuleData) (F : ScheduleItem -> ScheduleItem) :
  NoDup (map sstartTime sessions) ->
  (forall s m, row_of s (f m) = F (row_of s m)) ->
  let rows := flattenSchedule (currentMap fresh sessions n items) in
  let key := session_key day st in
  update_module fresh sessions n items day st moduleId f =
  if existsb (row_is key moduleId) rows
  then Some (update_first (row_is key moduleId) F rows) else None.
Proof.
  intros Hs HF rows key. subst rows key. unfold update_module.
  pose proof (group_wf fresh sessions n items Hs) as Hwf. fold (currentMap fresh sessions n items) in Hwf.
  set (M := currentMap fresh sessions n items) in *.
  destruct (map_get (session_key day st) M) as [s|] eqn:G.
  - destruct (get_split _ _ _ G) as [m1 [m2 [HM [Hn1 Hset]]]].
    rewrite Hset. rewrite HM in Hwf |- *.
    destruct (split_other_keys _ _ _ _ Hwf Hn1) as [O1 [O2 Ks]].
    rewrite !flatten_app, !flatten_cons.
    assert (Hq : forall m, row_is (session_key day st) moduleId (row_of s m) = module_is moduleId m).
    { intro m. unfold row_is, module_is. rewrite Ks, jstr_eqb_refl. reflexivity. }
    rewrite existsb_app, (existsb_false _ (flattenSchedule m1)) by (intros; apply row_is_other; auto).
    rewrite existsb_app, (existsb_map_find (module_is moduleId)) by exact Hq.
    rewrite (existsb_false _ (flattenSchedule m2)) by (intros; apply row_is_other; auto).
    rewrite orb_false_r. simpl.
    destruct (find (module_is moduleId) (modules s)) eqn:Fd; [|reflexivity].
    f_equal.
    rewrite update_first_skip by (intros; apply row_is_other; auto).
    rewrite update_first_hit by (rewrite (existsb_map_find (module_is moduleId)) by exact Hq; rewrite Fd; reflexivity).
    f_equal. f_equal.
    + apply (update_first_map (module_is moduleId) f _ F (row_of s)); [exact Hq|apply HF].
  - rewrite existsb_false; [reflexivity|].
    intros r Hr. apply row_is_other. intro E.
    apply (map_get_none _ _ G). rewrite <- E. exact (flatten_keys M r Hwf Hr).
Qed.

Lemma existsb_key_in (k : jstr) (l : list jstr) :
  existsb (jstr_eqb k) l = true <-> In k l.
Proof.
  rewrite existsb_exists. split.
  - intros [x [Hx E]]. apply jstr_eqb_spec in E. subst. exact Hx.
  - intro H. exists k. split; [exact H|apply jstr_eqb_refl].
Qed.

Lemma map_get_nodup (k : jstr) (v : SessionData) (mp : SessionMap) :
  NoDup (map fst mp) -> In (k, v) mp -> map_get k mp = Some v.
Proof.
  induction mp as [|[k' v'] mp IH]; simpl; [tauto|]. intros Hnd [E|Hin].
  - injection E as -> ->. rewrite jstr_eqb_refl. reflexivity.
  - inversion Hnd as [|? ? Hn Hnd']. subst.
    rewrite jstr_eqb_neq; [exact (IH Hnd' Hin)|].
    intros ->. apply Hn. apply (in_map fst) in Hin. exact Hin.
Qed.

(** The rows of a well-formed map that carry the key of one of its
    sessions are that session's rows. *)
Lemma filter_key_rows (mp : SessionMap) (k : jstr) (s : SessionData) :
  wf mp -> In (k, s) mp ->
  filter (fun r => jstr_eqb (item_key r) k) (flattenSchedule mp) = map (row_of s) (modules s).
Proof.
  intros Hwf Hin.
  destruct (get_split k mp s (map_get_nodup k s mp (proj1 Hwf) Hin)) as [m1 [m2 [HM [Hn1 _]]]].
  rewrite HM in Hwf |- *. destruct (split_other_keys _ _ _ _ Hwf Hn1) as [O1 [O2 Ks]].
  rewrite flatten_app, flatten_cons, !filter_app.
  rewrite (filter_none _ (flattenSchedule m1)) by (intros r Hr; apply jstr_eqb_neq; auto).
  rewrite (filter_none _ (flattenSchedule m2)) by (intros r Hr; apply jstr_eqb_neq; auto).
  rewrite filter_all; [rewrite app_nil_r; reflexivity|].
  intros r Hr. apply in_map_iff in Hr. destruct Hr as [m [<- _]]. rewrite Ks. apply jstr_eqb_refl.
Qed.

Lemma in_group (fresh : ScheduleItem -> jstr) (sessions : list SessionSlot) (n : Z)
  (items : list ScheduleItem) (k : jstr) (s : SessionData) :
  NoDup (map sstartTime sessions) ->
  In (k, s) (groupScheduleBySession fresh sessions n items) ->
  exists d sl, In (d, sl) (slots sessions n) /\ k = session_key d (sstartTime sl)
    /\ s = with_modules (empty_session d sl)
             (map (to_module fresh)
                (filter (fun it => jstr_eqb (item_key it) (session_key d (sstartTime sl))) items)).
Proof.
  intros Hs Hin. rewrite group_eq in Hin by exact (slot_keys_NoDup sessions n Hs).
  apply in_map_iff in Hin. destruct Hin as [[d sl] [E Hin]]. injection E as <- <-.
  exists d, sl. auto.
Qed.

(** X4: [removeModule] calls [onChange] exactly when [`${day}-${startTime}`]
    is a session of the template, and then with the current rows, in order,
    less every row of that session whose id is [moduleId]. *)
Theorem removeModule_rows (fresh : ScheduleItem -> jstr) (v : Q) (u : DurationUnit)
  (sessions : list SessionSlot) (n : Z) (items : list ScheduleItem)
  (day : Z) (st moduleId : jstr) :
  getSessionsAndDays v u = (sessions, n) ->
  removeModule fresh sessions n items day st moduleId =
  if existsb (jstr_eqb (session_key day st)) (slot_keys sessions n)
  then Some (filter (fun r => negb (row_is (session_key day st) moduleId r))
                    (flattenSchedule (currentMap fresh sessions n items)))
  else None.
Proof.
  intro Ht. pose proof (template_starts_NoDup v u) as Hs. rewrite Ht in Hs. simpl in Hs.
  pose proof (group_wf fresh sessions n items Hs) as Hwf.
  rewrite <- (group_keys fresh sessions n items Hs). fold (currentMap fresh sessions n items) in *.
  unfold removeModule. set (M := currentMap fresh sessions n items) in *.
  destruct (map_get (session_key day st) M) as [s|] eqn:G.
  - destruct (get_split _ _ _ G) as [m1 [m2 [HM [Hn1 Hset]]]].
    assert (Hk : existsb (jstr_eqb (session_key day st)) (map fst M) = true).
    { apply existsb_key_in. rewrite HM, map_app. apply in_or_app. simpl. auto. }
    rewrite Hk, Hset. rewrite HM in Hwf |- *.
    destruct (split_other_keys _ _ _ _ Hwf Hn1) as [O1 [O2 Ks]].
    rewrite !flatten_app, !flatten_cons, !filter_app.
    rewrite (filter_all _ (flattenSchedule m1)) by (intros r Hr; rewrite row_is_other; auto).
    rewrite (filter_all _ (flattenSchedule m2)) by (intros r Hr; rewrite row_is_other; auto).
    do 3 f_equal. symmetry.
    change (map (row_of (set_modules s (filter (fun m => negb (module_is moduleId m)) (modules s))))
              (filter (fun m => negb (module_is moduleId m)) (modules s)))
      with (map (row_of s) (filter (fun m => negb (module_is moduleId m)) (modules s))).
    apply (filter_map_comm _ (fun m => negb (module_is moduleId m))).
    intro m. pose proof (Ks m) as K1. unfold item_key, row_of in K1. simpl in K1.
    unfold row_is, module_is, item_key, row_of. simpl. rewrite K1, jstr_eqb_refl. reflexivity.
  - assert (Hk : existsb (jstr_eqb (session_key day st)) (map fst M) = false).
    { destruct (existsb _ _) eqn:E; [|reflexivity].
      apply existsb_key_in in E. destruct (map_get_none _ _ G E). }
    rewrite Hk. reflexivity.
Qed.

Lemma removeModule_rows_witness :
  getSessionsAndDays 1%Q days = (FULL_DAY_SESSIONS, 1%Z)
  /\ removeModule (fun _ => js "m") FULL_DAY_SESSIONS 1 [sample_row; stale_row] 1 (js "09:00") (js "row-1")
     = Some [].
Proof.
  assert (H : getSessionsAndDays 1%Q days = (FULL_DAY_SESSIONS, 1%Z)) by reflexivity.
  split; [exact H|].
  rewrite (removeModule_rows (fun _ => js "m") 1%Q days FULL_DAY_SESSIONS 1 [sample_row; stale_row]
             1 (js "09:00") (js "row-1") H).
  vm_compute. reflexivity.
Defined.

(** X5: [updateModuleTitle] calls [onChange] exactly when a current row of
    the session [`${day}-${startTime}`] has the id [moduleId], and then with
    the current rows where the first such row has the new title and
    nothing else changed. *)
Theorem updateModuleTitle_rows (fresh : ScheduleItem -> jstr) (v : Q) (u : DurationUnit)
  (sessions : list SessionSlot) (n : Z) (items : list ScheduleItem)
  (day : Z) (st moduleId title : jstr) :
  getSessionsAndDays v u = (sessions, n) ->
  let rows := flattenSchedule (currentMap fresh sessions n items) in
  let key := session_key day st in
  updateModuleTitle fresh sessions n items day st moduleId title =
  if existsb (row_is key moduleId) rows
  then Some (update_first (row_is key moduleId) (row_set_title title) rows) else None.
Proof.
  intros Ht rows key. pose proof (template_starts_NoDup v u) as Hs. rewrite Ht in Hs.
  apply update_module_rows; [exact Hs|]. intros s m. reflexivity.
Qed.

Lemma updateModuleTitle_rows_witness :
  getSessionsAndDays 1%Q days = (FULL_DAY_SESSIONS, 1%Z)
  /\ updateModuleTitle (fun _ => js "m") FULL_DAY_SESSIONS 1 [sample_row] 1 (js "09:00")
       (js "row-1") (js "Welcome")
     = Some [row_set_title (js "Welcome") (hd sample_row (flattenSchedule
              (currentMap (fun _ => js "m") FULL_DAY_SESSIONS 1 [sample_row])))].
Proof.
  assert (H : getSessionsAndDays 1%Q days = (FULL_DAY_SESSIONS, 1%Z)) by reflexivity.
  split; [exact H|].
  rewrite (updateModuleTitle_rows (fun _ => js "m") 1%Q days FULL_DAY_SESSIONS 1 [sample_row]
             1 (js "09:00") (js "row-1") (js "Welcome") H).
  vm_compute. reflexivity.
Defined.

(** X6: [addSubmodule] calls [onChange] exactly when a current row of the
    session [`${day}-${startTime}`] has the id [moduleId], and then with the
    current rows where the first such row has one more, empty, submodule at
    the end (its [submodule_title] becoming that list) and nothing else
    changed. *)
Theorem addSubmodule_rows (fresh : ScheduleItem -> jstr) (v : Q) (u : DurationUnit)
  (sessions : list SessionSlot) (n : Z) (items : list ScheduleItem)
  (day : Z) (st moduleId : jstr) :
  getSessionsAndDays v u = (sessions, n) ->
  let rows := flattenSchedule (currentMap fresh sessions n items) in
  let key := session_key day st in
  addSubmodule fresh sessions n items day st moduleId =
  if existsb (row_is key moduleId) rows
  then Some (update_first (row_is key moduleId)
               (fun r => row_set_submodules (submodules r ++ [[]]) r) rows)
  else None.
Proof.
  intros Ht rows key. pose proof (template_starts_NoDup v u) as Hs. rewrite Ht in Hs.
  apply update_module_rows; [exact Hs|]. intros s m.
  unfold row_of, row_set_submodules, push_submodule. simpl. destruct (msubmodules m ++ [[]]); reflexivity.
Qed.

Lemma addSubmodule_rows_witness :
  getSessionsAndDays 1%Q days = (FULL_DAY_SESSIONS, 1%Z)
  /\ exists out,
       addSubmodule (fun _ => js "m") FULL_DAY_SESSIONS 1 [sample_row; array_title_row] 1
         (js "09:00") (js "row-1") = Some out
       /\ map submodules out = [[js "Basics"; []]; []]
       /\ map submodule_title out = [Some [js "Basics"; []]; None].
Proof.
  assert (H : getSessionsAndDays 1%Q days = (FULL_DAY_SESSIONS, 1%Z)) by reflexivity.
  split; [exact H|].
  rewrite (addSubmodule_rows (fun _ => js "m") 1%Q days FULL_DAY_SESSIONS 1
             [sample_row; array_title_row] 1 (js "09:00") (js "row-1") H).
  vm_compute. eexists; split; [reflexivity|split; reflexivity].
Defined.

(** X7: [removeSubmodule] calls [onChange] exactly when a current row of
    the session [`${day}-${startTime}`] has the id [moduleId], and then with
    the current rows where the first such row has lost the submodule at
    [submoduleIndex] (none when the index is out of range), its
    [submodule_title] becoming null when no submodule is left, and nothing
    else changed. *)
Theorem removeSubmodule_rows (fresh : ScheduleItem -> jstr) (v : Q) (u : DurationUnit)
  (sessions : list SessionSlot) (n : Z) (items : list ScheduleItem)
  (day : Z) (st moduleId : jstr) (k : Z) :
  getSessionsAndDays v u = (sessions, n) ->
  let rows := flattenSchedule (currentMap fresh sessions n items) in
  let key := session_key day st in
  removeSubmodule fresh sessions n items day st moduleId k =
  if existsb (row_is key moduleId) rows
  then Some (update_first (row_is key moduleId)
               (fun r => row_set_submodules (drop_index 0 k (submodules r)) r) rows)
  else None.
Proof.
  intros Ht rows key. pose proof (template_starts_NoDup v u) as Hs. rewrite Ht in Hs.
  apply update_module_rows; [exact Hs|]. intros s m.
  unfold row_of, row_set_submodules, remove_submodule. simpl.
  destruct (drop_index 0 k (msubmodules m)); reflexivity.
Qed.

Lemma removeSubmodule_rows_witness :
  getSessionsAndDays 1%Q days = (FULL_DAY_SESSIONS, 1%Z)
  /\ option_map (map submodule_title)
       (removeSubmodule (fun _ => js "m") FULL_DAY_SESSIONS 1 [sample_row] 1 (js "09:00") (js "row-1") 0)
     = Some [None].
Proof.
  assert (H : getSessionsAndDays 1%Q days = (FULL_DAY_SESSIONS, 1%Z)) by reflexivity.
  split; [exact H|].
  rewrite (removeSubmodule_rows (fun _ => js "m") 1%Q days FULL_DAY_SESSIONS 1 [sample_row]
             1 (js "09:00") (js "row-1") 0 H).
  vm_compute. reflexivity.
Defined.

(** X3: [addModule] calls [onChange] exactly when [`${day}-${startTime}`]
    is a session of the template; the rows of the other sessions are then
    the current ones, in order, and the session's rows are its current ones
    followed by one new row: the given id, an empty title, no submodules,
    the slot's end time and 120 minutes. *)
Theorem addModule_rows (fresh : ScheduleItem -> jstr) (v : Q) (u : DurationUnit)
  (sessions : list SessionSlot) (n : Z) (items : list ScheduleItem)
  (new_id : jstr) (day : Z) (st : jstr) :
  getSessionsAndDays v u = (sessions, n) -> (0 < day)%Z ->
  let rows := flattenSchedule (currentMap fresh sessions n items) in
  let key := session_key day st in
  match addModule fresh sessions n items new_id day st with
  | None => ~ In key (slot_keys sessions n)
  | Some out =>
      exists sl, In (day, sl) (slots sessions n) /\ sstartTime sl = st
      /\ filter (fun r => negb (jstr_eqb (item_key r) key)) out
         = filter (fun r => negb (jstr_eqb (item_key r) key)) rows
      /\ filter (fun r => jstr_eqb (item_key r) key) out
         = filter (fun r => jstr_eqb (item_key r) key) rows
           ++ [{| id := new_id; day_number := day; start_time := st; end_time := sendTime sl;
                  module_title := Some (Json.JStr []); submodule_title := None;
                  duration_minutes := 120; submodules := [] |}]
  end.
Proof.
  intros Ht Hday rows key. pose proof (template_starts_NoDup v u) as Hs. rewrite Ht in Hs. simpl in Hs.
  pose proof (group_wf fresh sessions n items Hs) as Hwf.
  pose proof (group_keys fresh sessions n items Hs) as Hkeys.
  subst rows key. unfold addModule. fold (currentMap fresh sessions n items) in *.
  set (M := currentMap fresh sessions n items) in *.
  destruct (map_get (session_key day st) M) as [s|] eqn:G.
  - destruct (get_split _ _ _ G) as [m1 [m2 [HM [Hn1 Hset]]]].
    assert (HinM : In (session_key day st, s) M) by (rewrite HM; apply in_or_app; simpl; auto).
    destruct (in_group fresh sessions n items _ _ Hs HinM) as [d [sl [Hsl [Ek Es]]]].
    assert (Hd : (0 < d)%Z) by (apply in_slots in Hsl; apply (day_range_pos n); tauto).
    destruct (session_key_inj day d st (sstartTime sl) Hday Hd Ek) as [<- Est].
    exists sl. split; [exact Hsl|split; [symmetry; exact Est|]].
    rewrite Hset. rewrite HM in Hwf |- *.
    destruct (split_other_keys _ _ _ _ Hwf Hn1) as [O1 [O2 Ks]].
    rewrite !flatten_app, !flatten_cons, !filter_app.
    assert (Hrow : forall m, In m (modules s ++ [new_module new_id]) ->
                   row_of (with_module s (new_module new_id)) m = row_of s m) by reflexivity.
    replace (modules (with_module s (new_module new_id))) with (modules s ++ [new_module new_id])
      by reflexivity.
    rewrite (map_ext_in _ _ _ Hrow), map_app.
    assert (Hnew : row_of s (new_module new_id)
                   = {| id := new_id; day_number := day; start_time := st; end_time := sendTime sl;
                        module_title := Some (Json.JStr []); submodule_title := None;
                        duration_minutes := 120; submodules := [] |}).
    { rewrite Es. unfold row_of. simpl. rewrite Est. reflexivity. }
    split.
    + rewrite !(filter_all _ (flattenSchedule m1)) by (intros r Hr; rewrite jstr_eqb_neq; auto).
      rewrite !(filter_all _ (flattenSchedule m2)) by (intros r Hr; rewrite jstr_eqb_neq; auto).
      rewrite !filter_none; [reflexivity| |];
        intros r Hr; rewrite ?in_app_iff, in_map_iff in Hr;
        [destruct Hr as [m [<- _]]|destruct Hr as [[m [<- _]]|[<-|[]]]];
        rewrite ?Ks, ?jstr_eqb_refl; try reflexivity.
    + rewrite !(filter_none _ (flattenSchedule m1)) by (intros r Hr; rewrite jstr_eqb_neq; auto).
      rewrite !(filter_none _ (flattenSchedule m2)) by (intros r Hr; rewrite jstr_eqb_neq; auto).
      rewrite !filter_all.
      * rewrite <- Hnew. simpl. rewrite !app_nil_r. reflexivity.
      * intros r Hr. apply in_map_iff in Hr. destruct Hr as [m [<- _]]. rewrite Ks. apply jstr_eqb_refl.
      * intros r Hr. rewrite in_app_iff, in_map_iff in Hr.
        destruct Hr as [[m [<- _]]|[<-|[]]]; rewrite Ks; apply jstr_eqb_refl.
  - rewrite <- Hkeys. exact (map_get_none _ _ G).
Qed.

Lemma addModule_rows_witness :
  getSessionsAndDays 1%Q days = (FULL_DAY_SESSIONS, 1%Z) /\ (0 < 1)%Z
  /\ exists out,
       addModule (fun _ => js "m") FULL_DAY_SESSIONS 1 [sample_row; array_title_row] (js "new") 1
         (js "11:00") = Some out
       /\ exists sl, In (1%Z, sl) (slots FULL_DAY_SESSIONS 1) /\ sstartTime sl = js "11:00"
       /\ filter (fun r => negb (jstr_eqb (item_key r) (session_key 1 (js "11:00")))) out
          = filter (fun r => negb (jstr_eqb (item_key r) (session_key 1 (js "11:00"))))
              (flattenSchedule (currentMap (fun _ => js "m") FULL_DAY_SESSIONS 1
                                  [sample_row; array_title_row]))
       /\ filter (fun r => jstr_eqb (item_key r) (session_key 1 (js "11:00"))) out
          = filter (fun r => jstr_eqb (item_key r) (session_key 1 (js "11:00")))
              (flattenSchedule (currentMap (fun _ => js "m") FULL_DAY_SESSIONS 1
                                  [sample_row; array_title_row]))
            ++ [{| id := js "new"; day_number := 1; start_time := js "11:00";
                   end_time := sendTime sl; module_title := Some (Json.JStr []);
                   submodule_title := None; duration_minutes := 120; submodules := [] |}]
       /\ map id out = [js "row-1"; js "row-2"; js "new"].
Proof.
  assert (H : getSessionsAndDays 1%Q days = (FULL_DAY_SESSIONS, 1%Z)) by reflexivity.
  assert (H0 : (0 < 1)%Z) by lia.
  split; [exact H|split; [exact H0|]].
  pose proof (addModule_rows (fun _ => js "m") 1%Q days FULL_DAY_SESSIONS 1
                [sample_row; array_title_row] (js "new") 1 (js "11:00") H H0) as R.
  cbv zeta in R.
  destruct (addModule (fun _ => js "m") FULL_DAY_SESSIONS 1 [sample_row; array_title_row]
              (js "new") 1 (js "11:00")) as [out|] eqn:E.
  - exists out. split; [reflexivity|].
    destruct R as [sl [R1 [R2 [R3 R4]]]].
    exists sl. split; [exact R1|split; [exact R2|split; [exact R3|split; [exact R4|]]]].
    vm_compute in E. injection E as E'. rewrite <- E'. reflexivity.
  - vm_compute in E. discriminate.
Defined.

Lemma concat_singletons {A B : Type} (f : A -> B) (l : list A) :
  List.concat (map (fun x => [f x]) l) = map f l.
Proof. induction l as [|x l IH]; simpl; [reflexivity|rewrite IH; reflexivity]. Qed.

(** X8: the initialising effect fires exactly when there is no row and the
    duration is positive, and then emits one row per session of the
    template, in template order (day by day, session by session): the id
    given for that session, an empty title, no submodules, the slot's
    times and 120 minutes. *)
Theorem initSchedule_rows (fresh : ScheduleItem -> jstr) (v : Q) (u : DurationUnit)
  (sessions : list SessionSlot) (n : Z) (items : list ScheduleItem) (new_id : jstr -> jstr) :
  getSessionsAndDays v u = (sessions, n) ->
  initSchedule fresh sessions n items new_id v =
  if match items with [] => true | _ => false end && Qltb 0 v
  then Some (map (fun '(d, sl) =>
                    {| id := new_id (session_key d (sstartTime sl)); day_number := d;
                       start_time := sstartTime sl; end_time := sendTime sl;
                       module_title := Some (Json.JStr []); submodule_title := None;
                       duration_minutes := 120; submodules := [] |})
                 (slots sessions n))
  else None.
Proof.
  intro Ht. pose proof (template_starts_NoDup v u) as Hs. rewrite Ht in Hs. simpl in Hs.
  unfold initSchedule. destruct items as [|it items]; [|reflexivity]. simpl.
  destruct (Qltb 0 v); [|reflexivity]. f_equal.
  unfold currentMap. rewrite group_eq by exact (slot_keys_NoDup sessions n Hs).
  unfold flattenSchedule. rewrite flat_map_concat_map, !map_map.
  match goal with |- _ = map ?f ?l => rewrite <- (concat_singletons f l) end.
  f_equal. apply map_ext. intros [d sl]. reflexivity.
Qed.

Lemma initSchedule_rows_witness :
  getSessionsAndDays (1 # 2) half_day = (HALF_DAY_SESSIONS, 1%Z)
  /\ option_map (map start_time)
       (initSchedule (fun _ => js "m") HALF_DAY_SESSIONS 1 [] (fun k => k) (1 # 2))
     = Some [js "09:00"; js "11:00"].
Proof.
  assert (H : getSessionsAndDays (1 # 2) half_day = (HALF_DAY_SESSIONS, 1%Z)) by reflexivity.
  split; [exact H|].
  rewrite (initSchedule_rows (fun _ => js "m") (1 # 2) half_day HALF_DAY_SESSIONS 1 [] (fun k => k) H).
  vm_compute. reflexivity.
Defined.

(** X1: every row the builder emits from its grouped view lies on a slot of
    the template and takes the slot's end time and a duration of 120
    minutes, whatever end time and duration the input row had (also for
    the three-hour 11:00-14:00 slot); its title is a string and its
    [submodule_title] is its [submodules], or null when that is empty. *)
Theorem group_rows_shape (fresh : ScheduleItem -> jstr) (v : Q) (u : DurationUnit)
  (sessions : list SessionSlot) (n : Z) (items : list ScheduleItem) (r : ScheduleItem) :
  getSessionsAndDays v u = (sessions, n) ->
  In r (flattenSchedule (groupScheduleBySession fresh sessions n items)) ->
  exists d sl, In (d, sl) (slots sessions n)
    /\ day_number r = d /\ start_time r = sstartTime sl /\ end_time r = sendTime sl
    /\ duration_minutes r = 120%Z
    /\ (exists t, module_title r = Some (Json.JStr t))
    /\ submodule_title r = match submodules r with [] => None | l => Some l end.
Proof.
  intros Ht Hr. pose proof (template_starts_NoDup v u) as Hs. rewrite Ht in Hs. simpl in Hs.
  destruct (in_flatten _ _ Hr) as [k [s [m [Hin [_ ->]]]]].
  destruct (in_group fresh sessions n items k s Hs Hin) as [d [sl [Hsl [_ ->]]]].
  exists d, sl. split; [exact Hsl|]. simpl.
  do 4 (split; [reflexivity|]). split; [eexists; reflexivity|].
  destruct (msubmodules m); reflexivity.
Qed.

Lemma group_rows_shape_witness :
  getSessionsAndDays 1%Q days = (FULL_DAY_SESSIONS, 1%Z)
  /\ In (hd sample_row (flattenSchedule (groupScheduleBySession (fun _ => js "m") FULL_DAY_SESSIONS 1
          [array_title_row])))
        (flattenSchedule (groupScheduleBySession (fun _ => js "m") FULL_DAY_SESSIONS 1 [array_title_row]))
  /\ duration_minutes (hd sample_row (flattenSchedule
        (groupScheduleBySession (fun _ => js "m") FULL_DAY_SESSIONS 1 [array_title_row]))) = 120%Z.
Proof.
  assert (H : getSessionsAndDays 1%Q days = (FULL_DAY_SESSIONS, 1%Z)) by reflexivity.
  assert (Hin : In (hd sample_row (flattenSchedule (groupScheduleBySession (fun _ => js "m")
                   FULL_DAY_SESSIONS 1 [array_title_row])))
                (flattenSchedule (groupScheduleBySession (fun _ => js "m") FULL_DAY_SESSIONS 1
                   [array_title_row]))) by (vm_compute; left; reflexivity).
  split; [exact H|split; [exact Hin|]].
  destruct (group_rows_shape _ _ _ _ _ _ _ H Hin) as [d [sl [_ [_ [_ [_ [E _]]]]]]].
  exact E.
Defined.

(** X2: grouping the builder's own output again gives back the same
    grouped view, whatever ids a later grouping would invent: every edit
    handler regroups the rows the previous one emitted, and loses or
    reorders nothing by doing so.  (Invented ids are never empty.) *)
Theorem group_flatten_idempotent (fresh fresh' : ScheduleItem -> jstr) (v : Q) (u : DurationUnit)
  (sessions : list SessionSlot) (n : Z) (items : list ScheduleItem) :
  getSessionsAndDays v u = (sessions, n) ->
  (forall it, fresh it <> []) ->
  groupScheduleBySession fresh' sessions n
    (flattenSchedule (groupScheduleBySession fresh sessions n items))
  = groupScheduleBySession fresh sessions n items.
Proof.
  intros Ht Hfresh. pose proof (template_starts_NoDup v u) as Hs. rewrite Ht in Hs. simpl in Hs.
  pose proof (slot_keys_NoDup sessions n Hs) as Hnd.
  set (G := groupScheduleBySession fresh sessions n items).
  pose proof (group_wf fresh sessions n items Hs) as Hwf. fold G in Hwf.
  assert (HG := group_eq fresh sessions n items Hnd). fold G in HG.
  rewrite (group_eq fresh' sessions n _ Hnd). rewrite HG in Hwf |- *.
  apply map_ext_in. intros [d sl] Hsl.
  set (S := with_modules (empty_session d sl)
              (map (to_module fresh)
                 (filter (fun it => jstr_eqb (item_key it) (session_key d (sstartTime sl))) items))).
  assert (Hin : In (session_key d (sstartTime sl), S) G).
  { rewrite HG. apply in_map_iff. exists (d, sl). split; [reflexivity|exact Hsl]. }
  rewrite HG in Hin. rewrite (filter_key_rows _ _ S Hwf Hin).
  f_equal. rewrite map_map.
  assert (Hm : forall m, In m (modules S) -> to_module fresh' (row_of S m) = m).
  { intros m HmS. unfold S in HmS. simpl in HmS. apply in_map_iff in HmS.
    destruct HmS as [it [<- _]]. unfold to_module at 2. unfold row_of. simpl.
    destruct (id it) eqn:Ei; [destruct (fresh it) eqn:Ef; [destruct (Hfresh it Ef)|]|];
      unfold to_module; simpl; rewrite ?Ei, ?Ef; reflexivity. }
  rewrite (map_ext_in _ (fun m => m) _ Hm), map_id. reflexivity.
Qed.

Lemma group_flatten_idempotent_witness :
  getSessionsAndDays 2%Q days = (FULL_DAY_SESSIONS, 2%Z)
  /\ (forall it : ScheduleItem, js "m" <> [])
  /\ groupScheduleBySession (fun _ => js "x") FULL_DAY_SESSIONS 2
       (flattenSchedule (groupScheduleBySession (fun _ => js "m") FULL_DAY_SESSIONS 2
          [sample_row; stale_row; array_title_row]))
     = groupScheduleBySession (fun _ => js "m") FULL_DAY_SESSIONS 2
          [sample_row; stale_row; array_title_row].
Proof.
  assert (H : getSessionsAndDays 2%Q days = (FULL_DAY_SESSIONS, 2%Z)) by reflexivity.
  assert (Hf : forall it : ScheduleItem, js "m" <> []) by (intros it; discriminate).
  split; [exact H|split; [exact Hf|]].
  exact (group_flatten_idempotent (fun _ => js "m") (fun _ => js "x") 2%Q days FULL_DAY_SESSIONS 2
           [sample_row; stale_row; array_title_row] H Hf).
Defined.

End ScheduleEditFacts.

Module ImportFacts.
Import Js JsFacts Regex TimeNormalizer ListFieldNormalizer ScheduleImport.

Lemma calc_pos (a b : jstr) : (0 < calculateDurationMinutes a b)%Z.
Proof.
  unfold calculateDurationMinutes. cbv zeta.
  destruct (olift2 Z.sub _ _) as [d|]; [|lia].
  match goal with |- context [Z.ltb 0 ?e] => destruct (Z.ltb_spec 0 e) end; lia.
Qed.

Lemma find_none_notin (s : list CourseSchedule) (i : jstr) :
  findUnique s i = None -> ~ In i (map cs_id s).
Proof.
  unfold findUnique. intros F Hin.
  apply in_map_iff in Hin as [d [E Hd]].
  pose proof (find_none _ _ F d Hd) as Hf. cbv beta in Hf.
  rewrite E, jstr_eqb_refl in Hf. discriminate.
Qed.

Lemma skipn_run_len (p : N -> bool) (l : jstr) :
  match skipn (run_len p None l) l with [] => True | c :: _ => p c = false end.
Proof.
  induction l as [|a l IH]; simpl; [exact I|].
  destruct (p a) eqn:E; simpl; [exact IH|exact E].
Qed.

Lemma bullet_prefix_head (l : jstr) :
  match replace_prefix bullet_re l with
  | [] => True
  | c :: _ => (is_ws c || (c =? 8226)%N || (c =? 45)%N || (c =? 42)%N) = false
  end.
Proof.
  assert (E : replace_prefix bullet_re l
              = skipn (run_len (fun c => is_ws c || (c =? 8226)%N || (c =? 45)%N || (c =? 42)%N)
                               None l) l).
  { unfold replace_prefix, m_top, bullet_re. cbn [m].
    destruct (run_len _ None l) as [|n]; reflexivity. }
  rewrite E. apply skipn_run_len.
Qed.

Lemma drop_ws_app_last (l : jstr) (c : N) :
  is_ws c = false -> exists u, drop_ws (l ++ [c]) = u ++ [c].
Proof.
  intro H. induction l as [|a l IH]; simpl.
  - rewrite H. exists []. reflexivity.
  - destruct (is_ws a); [exact IH|]. exists (a :: l). reflexivity.
Qed.

Lemma trim_head (c : N) (t : jstr) : is_ws c = false -> exists u, trim (c :: t) = c :: u.
Proof.
  intro H. unfold trim. rewrite (ListFieldFacts.drop_ws_id (c :: t) H).
  cbn [rev]. destruct (drop_ws_app_last (rev t) c H) as [u Hu].
  rewrite Hu, rev_app_distr. exists (rev u). reflexivity.
Qed.

Section Rows.
Variable course_exists : jstr -> bool.
Variable parseDate : jstr -> Z.

Lemma importRow_spec (s : list CourseSchedule) (r : CourseScheduleRow) :
  (snd (importRow course_exists parseDate s r) <> Imported
   /\ fst (importRow course_exists parseDate s r) = s)
  \/ (snd (importRow course_exists parseDate s r) = Imported
      /\ exists d, fst (importRow course_exists parseDate s r) = s ++ [d]
                   /\ findUnique s (cs_id d) = None /\ imported_from course_exists r d).
Proof.
  unfold importRow.
  destruct (jstr_eqb (r_course_id r) [] || jstr_eqb (trim (r_course_id r)) []) eqn:Hc;
    [left; split; [discriminate|reflexivity]|].
  destruct (negb (course_exists (trim (r_course_id r)))) eqn:Hce;
    [left; split; [discriminate|reflexivity]|].
  destruct (r_id r) as [rid|] eqn:Hid; [|left; split; [discriminate|reflexivity]].
  destruct (findUnique s (trim rid)) eqn:F; [left; split; [discriminate|reflexivity]|].
  destruct (parseInt (r_day_number r)) as [dn|] eqn:Hd; [|left; split; [discriminate|reflexivity]].
  destruct (dn <? 1)%Z eqn:Hlt; [left; split; [discriminate|reflexivity]|].
  destruct (parseModuleTitle (r_module_title r)) as [|t ts] eqn:Hm;
    [left; split; [discriminate|reflexivity]|].
  unfold create. cbn [cs_id]. rewrite F. right. split; [reflexivity|].
  eexists; split; [reflexivity|]. split; [exact F|].
  unfold imported_from.
  cbn [cs_id cs_courseId cs_dayNumber cs_startTime cs_endTime cs_moduleTitle
       cs_submoduleTitle cs_durationMinutes].
  apply orb_false_iff in Hc as [_ Hc]. apply negb_false_iff in Hce.
  apply Z.ltb_ge in Hlt.
  split; [exists rid; split; [exact Hid|reflexivity]|].
  split; [reflexivity|].
  split; [intro E; rewrite E in Hc; discriminate|].
  split; [exact Hce|].
  split; [exact Hd|].
  split; [exact Hlt|].
  split; [reflexivity|].
  split; [reflexivity|].
  split; [symmetry; exact Hm|].
  split; [discriminate|].
  split; [|split].
  - destruct (parseSubmoduleTitle (r_submodule_title r)) as [|a l] eqn:Hs;
      intros l' E; [discriminate|]. injection E as <-. split; [reflexivity|discriminate].
  - destruct (parseSubmoduleTitle (r_submodule_title r)) as [|a l] eqn:Hs;
      intro E; [reflexivity|discriminate].
  - destruct (parseInt (r_duration_minutes r)) as [x|]; [|apply calc_pos].
    destruct (x <=? 0)%Z eqn:E; [apply calc_pos|apply Z.leb_gt in E; exact E].
Qed.

(** X9: the import loop only appends to the store: it adds one row per
    imported record, each under a fresh identifier, so identifiers stay
    unique; the success counter grows by the number of added rows, every
    record bumps exactly one counter, and every added row is built from
    one of the records (trimmed identifier and course of an existing
    course, parsed day number at least 1, normalised times, parsed
    non-empty module titles, positive duration). *)
Theorem importRows_appends (s0 : list CourseSchedule) (c : Counters)
  (rows : list CourseScheduleRow) (Hnd : NoDup (map cs_id s0)) :
  exists added,
    fst (importRows course_exists parseDate s0 c rows) = s0 ++ added
    /\ NoDup (map cs_id (fst (importRows course_exists parseDate s0 c rows)))
    /\ successCount (snd (importRows course_exists parseDate s0 c rows))
       = successCount c + List.length added
    /\ successCount (snd (importRows course_exists parseDate s0 c rows))
       + skippedCount (snd (importRows course_exists parseDate s0 c rows))
       + errorCount (snd (importRows course_exists parseDate s0 c rows))
       = successCount c + skippedCount c + errorCount c + List.length rows
    /\ Forall (fun d => exists r, In r rows /\ imported_from course_exists r d) added.
Proof.
  revert s0 c Hnd. induction rows as [|r rows IH]; intros s0 c Hnd; simpl.
  - exists []. rewrite app_nil_r. split; [reflexivity|split; [exact Hnd|]].
    simpl. split; [lia|split; [lia|constructor]].
  - destruct (importRow_spec s0 r) as [[Ho E]|[Ho [d [E [F Hd]]]]];
      destruct (importRow course_exists parseDate s0 r) as [s' o] eqn:St;
      simpl in Ho, E; subst s'.
    + destruct (IH s0 (bump c o) Hnd) as [added [H1 [H2 [H3 [H4 H5]]]]].
      exists added. split; [exact H1|split; [exact H2|]].
      rewrite H4, H3.
      assert (Hw : Forall (fun d => exists r0, In r0 (r :: rows) /\ imported_from course_exists r0 d)
                     added).
      { eapply Forall_impl; [|exact H5].
        intros x [r' [Hr' Hx]]. exists r'. split; [right; exact Hr'|exact Hx]. }
      destruct o; [contradiction| |]; simpl;
        (split; [lia|split; [lia|exact Hw]]).
    + subst o.
      assert (Hnd' : NoDup (map cs_id (s0 ++ [d]))).
      { rewrite map_app. simpl.
        apply (Permutation_NoDup (Permutation_cons_append (map cs_id s0) (cs_id d))).
        constructor; [exact (find_none_notin s0 (cs_id d) F)|exact Hnd]. }
      destruct (IH (s0 ++ [d]) (bump c Imported) Hnd') as [added [H1 [H2 [H3 [H4 H5]]]]].
      exists (d :: added). rewrite H1, <- app_assoc.
      split; [reflexivity|split; [rewrite H1, <- app_assoc in H2; exact H2|]].
      rewrite H4, H3. simpl.
      split; [lia|split; [lia|]].
      constructor; [exists r; split; [left; reflexivity|exact Hd]|].
      eapply Forall_impl; [|exact H5].
      intros x [r' [Hr' Hx]]; exists r'; split; [right; exact Hr'|exact Hx].
Qed.

End Rows.

(** X10: every item of the production [parseSubmoduleTitle] is trimmed and
    starts with a character that is neither white space nor a bullet
    ('•', '-', '*'): the leading run of such characters of each line is
    removed, and blank lines are dropped. *)
Theorem parseSubmoduleTitle_items (s : jstr) :
  Forall (fun x => trim x = x
                   /\ match x with
                      | [] => False
                      | c :: _ => (is_ws c || (c =? 8226)%N || (c =? 45)%N || (c =? 42)%N) = false
                      end)
         (parseSubmoduleTitle s).
Proof.
  unfold parseSubmoduleTitle. destruct (is_sentinel s); [constructor|].
  induction (split_on 10 s) as [|a l IH]; cbn [map filter]; [constructor|].
  pose proof (bullet_prefix_head a) as Hb. revert Hb.
  destruct (replace_prefix bullet_re a) as [|c t]; intro Hb.
  - replace (trim []) with (@nil N) by reflexivity. exact IH.
  - assert (Hws : is_ws c = false).
    { apply orb_false_iff in Hb as [Hb _]. apply orb_false_iff in Hb as [Hb _].
      apply orb_false_iff in Hb as [Hb _]. exact Hb. }
    destruct (trim_head c t Hws) as [u Hu]. rewrite Hu. cbn [nonempty].
    constructor; [|exact IH].
    split; [rewrite <- Hu; apply ListFieldFacts.trim_idem|exact Hb].
Qed.

Lemma importRows_appends_witness :
  NoDup (map cs_id [stored_row])
  /\ exists added,
    fst (importRows (fun _ => true) (fun _ => 0%Z) [stored_row] zero_counters
           [csv_row "s2" "c1" "2" "A | B"; csv_row "s1" "c1" "1" "Intro"]) = [stored_row] ++ added
    /\ NoDup (map cs_id (fst (importRows (fun _ => true) (fun _ => 0%Z) [stored_row] zero_counters
           [csv_row "s2" "c1" "2" "A | B"; csv_row "s1" "c1" "1" "Intro"])))
    /\ successCount (snd (importRows (fun _ => true) (fun _ => 0%Z) [stored_row] zero_counters
           [csv_row "s2" "c1" "2" "A | B"; csv_row "s1" "c1" "1" "Intro"]))
       = successCount zero_counters + List.length added
    /\ successCount (snd (importRows (fun _ => true) (fun _ => 0%Z) [stored_row] zero_counters
           [csv_row "s2" "c1" "2" "A | B"; csv_row "s1" "c1" "1" "Intro"]))
       + skippedCount (snd (importRows (fun _ => true) (fun _ => 0%Z) [stored_row] zero_counters
           [csv_row "s2" "c1" "2" "A | B"; csv_row "s1" "c1" "1" "Intro"]))
       + errorCount (snd (importRows (fun _ => true) (fun _ => 0%Z) [stored_row] zero_counters
           [csv_row "s2" "c1" "2" "A | B"; csv_row "s1" "c1" "1" "Intro"]))
       = successCount zero_counters + skippedCount zero_counters + errorCount zero_counters
         + List.length [csv_row "s2" "c1" "2" "A | B"; csv_row "s1" "c1" "1" "Intro"]
    /\ Forall (fun d => exists r, In r [csv_row "s2" "c1" "2" "A | B"; csv_row "s1" "c1" "1" "Intro"]
                                 /\ imported_from (fun _ => true) r d) added.
Proof.
  assert (H : NoDup (map cs_id [stored_row])) by (constructor; [intros []|constructor]).
  split; [exact H|].
  exact (importRows_appends (fun _ => true) (fun _ => 0%Z) [stored_row] zero_counters
           [csv_row "s2" "c1" "2" "A | B"; csv_row "s1" "c1" "1" "Intro"] H).
Defined.

End ImportFacts.
